(** * Dispatch: Task and Ticket models

    A shallow embedding of [src/dispatch/task/models.py] and
    [src/dispatch/ticket/models.py]: the three string enumerations, the
    default due date of a task, the [before_update] listener that stamps
    [resolved_at], the derived [project] attribute, and the pydantic
    transfer shapes (Ticket read shape; Task base, create, update and read
    shapes) together with the part of pydantic's field validation their
    field declarations use. *)

From Stdlib Require Import ZArith List Lia.
From stdpp Require Import base option list gmap strings pretty.

Local Open Scope string_scope.
Local Open Scope Z_scope.

(** ** Python values

    The values that reach the models: keyword arguments of a shape, bind
    parameters of an INSERT.  A member of a [class X(str, Enum)] is a [str]
    instance and compares and hashes as its value, so it is the [PStr] of
    its value.  A [str] is the sequence of its characters.  A naive
    [datetime] is the count of microseconds since 0001-01-01T00:00:00.  A
    [dict] has string keys and keeps its entries in the order of their
    insertion. *)

#[local] Set Warnings "-register-all".

Inductive pyval : Type :=
| PNone
| PBool (b : bool)
| PInt (n : Z)
| PStr (s : string)
| PDatetime (t : Z)
| PList (xs : list pyval)
| PDict (items : list (string * pyval)).

(** [v == s] for a string [s]: only a [str] equals a [str]. *)
Definition py_eq_str (v : pyval) (s : string) : bool :=
  match v with
  | PStr s' => String.eqb s' s
  | _ => false
  end.

(** The exceptions the modelled code can raise. *)
Inductive exn : Type :=
| KeyError (key : string)
| AttributeError (attr : string)
| OverflowError.

Definition result (A : Type) : Type := (exn + A)%type.

(** ** datetime and timedelta *)

Module datetime.

Definition us_per_day : Z := 86400 * 1000000.

(** [datetime.max] is 9999-12-31T23:59:59.999999, the last microsecond of
    day 3652059 of the proleptic Gregorian calendar. *)
Definition max : Z := 3652059 * us_per_day - 1.

Definition in_range (t : Z) : Prop := 0 <= t <= max.

(** [timedelta(days=d)] in microseconds. *)
Definition timedelta_days (d : Z) : Z := d * us_per_day.

(** [t + delta]; outside of years 1..9999 Python raises OverflowError. *)
Definition add (t delta : Z) : result Z :=
  let r := t + delta in
  if (0 <=? r) && (r <=? max) then inr r else inl OverflowError.

End datetime.

(** ** The enumerations (models.py, lines 31-44) *)

Module TaskStatus.
Inductive t : Type := open | resolved.

Definition value (m : t) : string :=
  match m with
  | open => "Open"
  | resolved => "Resolved"
  end.

Definition members : list t := [open; resolved].

(** [TaskStatus(s)]: the member whose value is [s]; ValueError is [None]. *)
Definition of_value (s : string) : option t :=
  List.find (fun m => String.eqb (value m) s) members.
End TaskStatus.

Module TaskSource.
Inductive t : Type := incident | post_incident_review.

Definition value (m : t) : string :=
  match m with
  | incident => "Incident"
  | post_incident_review => "Post Incident Review"
  end.

Definition members : list t := [incident; post_incident_review].

Definition of_value (s : string) : option t :=
  List.find (fun m => String.eqb (value m) s) members.
End TaskSource.

Module TaskPriority.
Inductive t : Type := low | medium | high.

Definition value (m : t) : string :=
  match m with
  | low => "Low"
  | medium => "Medium"
  | high => "High"
  end.

Definition members : list t := [low; medium; high].

Definition of_value (s : string) : option t :=
  List.find (fun m => String.eqb (value m) s) members.
End TaskPriority.

(** ** default_resolution_time (models.py, lines 47-54)

    [context] is the dictionary [context.get_current_parameters()] returns,
    [utcnow] the reading of the clock. *)

Definition default_resolution_time
    (context : gmap string pyval) (utcnow : Z) : result Z :=
  match context !! "source" with
  | None => inl (KeyError "source")
  | Some task_source =>
      if py_eq_str task_source (TaskSource.value TaskSource.incident) then
        datetime.add utcnow (datetime.timedelta_days 1)
      else if py_eq_str task_source
                (TaskSource.value TaskSource.post_incident_review) then
        datetime.add utcnow (datetime.timedelta_days 7)
      else
        datetime.add utcnow (datetime.timedelta_days 1)
  end.

(** [Column(DateTime, default=default_resolution_time)] (line 77): on
    INSERT the default is called when the statement carries no value for the
    column, that is when the attribute was never set or was set to None. *)
Definition resolve_by_on_insert
    (context : gmap string pyval) (utcnow : Z) : result pyval :=
  match context !! "resolve_by" with
  | Some PNone | None =>
      match default_resolution_time context utcnow with
      | inr t => inr (PDatetime t)
      | inl e => inl e
      end
  | Some supplied => inr supplied
  end.

(** ** Validation errors

    A pydantic ValidationError is a list of lines, each with the location
    of the offending value (field names and list indices, outermost
    first) and what is wrong with it. *)

Inductive loc_item : Type :=
| LField (name : string)
| LIndex (i : nat).

Inductive error_kind : Type :=
| MissingError
| NoneIsNotAllowedError
| StrError
| IntegerError
| DateTimeError
| ListError
| DictError
| EnumMemberError (permitted : list string)
| ExternalError (msg : string)
| TypeError (msg : string).

(** One line of a pydantic ValidationError: where, and what. *)
Definition ErrorWrapper : Type := (list loc_item * error_kind)%type.

(** Outcome of validating a value or constructing a shape: the collected
    errors (a ValidationError) or the validated value. *)
Definition V (A : Type) : Type := (list ErrorWrapper + A)%type.

(** ** Collaborators outside of these two files

    The models import types and constants from other modules of the
    application.  They are taken as parameters: the ORM types the
    relationships point to, the nested transfer shapes with their
    validation, the parsers pydantic and Python bring, and the two string
    constants. *)
Class Externals : Type := {
  Participant : Type;
  Project : Type;
  Incident : Type;
  (** [incident.project] *)
  Incident_project : Incident -> Project;
  ParticipantRead : Type;
  ParticipantUpdate : Type;
  IncidentReadNested : Type;
  ProjectRead : Type;
  ParticipantRead_validate : pyval -> V ParticipantRead;
  ParticipantUpdate_validate : pyval -> V ParticipantUpdate;
  IncidentReadNested_validate : pyval -> V IncidentReadNested;
  ProjectRead_validate : pyval -> V ProjectRead;
  (** pydantic's parsing of a datetime from text or a number *)
  parse_datetime : pyval -> option Z;
  (** Python's [int(s)] on a string; [None] is ValueError *)
  int_of_str : string -> option Z;
  (** dispatch.messaging.strings *)
  INCIDENT_TICKET_DESCRIPTION : string;
  (** dispatch.config *)
  INCIDENT_RESOURCE_INCIDENT_TASK : string
}.

(** ** The persisted records *)

(** [class Ticket(Base, ResourceMixin)] (ticket/models.py, lines 12-14); the
    columns of ResourceMixin are declared outside of these files. *)
Record Ticket : Type := mkTicket {
  Ticket_id : option Z;
  Ticket_incident_id : option Z
}.

Module Task.
Section ORM.
Context {E : Externals}.

(** [class Task(Base, ResourceMixin)] (task/models.py, lines 74-95):
    every column is nullable but the key; [incident] is the relationship
    the hybrid property reads. *)
Record t : Type := mkTask {
  id : option Z;
  resolved_at : option Z;
  resolve_by : option Z;
  last_reminder_at : option Z;
  creator_id : option Z;
  owner_id : option Z;
  incident_id : option Z;
  assignees : list Participant;
  description : option string;
  source : option string;
  priority : option string;
  status : option string;
  reminders : option bool;
  tickets : list Ticket;
  incident : option Incident
}.

(** [target.resolved_at = v] *)
Definition set_resolved_at (v : option Z) (x : t) : t :=
  {| id := id x; resolved_at := v; resolve_by := resolve_by x;
     last_reminder_at := last_reminder_at x; creator_id := creator_id x;
     owner_id := owner_id x; incident_id := incident_id x;
     assignees := assignees x; description := description x;
     source := source x; priority := priority x; status := status x;
     reminders := reminders x; tickets := tickets x;
     incident := incident x |}.

(** [Task.project] (lines 97-99): [self.incident.project]; without an
    incident the attribute access on None raises. *)
Definition project (self : t) : result Project :=
  match incident self with
  | Some i => inr (Incident_project i)
  | None => inl (AttributeError "project")
  end.

(** [x == m] for the content [x] of a String column and a member [m]. *)
Definition status_is (x : option string) (m : TaskStatus.t) : bool :=
  match x with
  | Some s => String.eqb s (TaskStatus.value m)
  | None => false
  end.

(** [Task._resolved_at(mapper, connection, target)] (lines 101-104).  The
    mapper and the connection are not used; the assignment to the target
    is returned as the new state of the target. *)
Definition _resolved_at (utcnow : Z) (target : t) : t :=
  if status_is (status target) TaskStatus.resolved then
    set_resolved_at (Some utcnow) target
  else target.

(** Mapper events of the unit of work. *)
Inductive mapper_event : Type :=
| before_insert | after_insert
| before_update | after_update
| before_delete | after_delete.

(** [__declare_last__] (lines 106-108): the only listener of the class
    is registered on "before_update". *)
Definition listeners (ev : mapper_event) : list (Z -> t -> t) :=
  match ev with
  | before_update => [_resolved_at]
  | _ => []
  end.

(** Firing an event runs its listeners on the target, in order. *)
Definition fire (ev : mapper_event) (utcnow : Z) (target : t) : t :=
  fold_left (fun x listener => listener utcnow x) (listeners ev) target.

(** Attribute writes on a loaded Task: the pending change-set of an
    update.  Writing the incident writes the foreign key with it. *)
Inductive assignment : Type :=
| SetResolvedAt (v : option Z)
| SetResolveBy (v : option Z)
| SetLastReminderAt (v : option Z)
| SetCreatorId (v : option Z)
| SetOwnerId (v : option Z)
| SetIncident (k : option Z) (v : option Incident)
| SetAssignees (v : list Participant)
| SetDescription (v : option string)
| SetSource (v : option string)
| SetPriority (v : option string)
| SetStatus (v : option string)
| SetReminders (v : option bool)
| SetTickets (v : list Ticket).

Definition assign (x : t) (a : assignment) : t :=
  match a with
  | SetResolvedAt v => set_resolved_at v x
  | SetResolveBy v =>
      mkTask (id x) (resolved_at x) v (last_reminder_at x) (creator_id x)
        (owner_id x) (incident_id x) (assignees x) (description x)
        (source x) (priority x) (status x) (reminders x) (tickets x)
        (incident x)
  | SetLastReminderAt v =>
      mkTask (id x) (resolved_at x) (resolve_by x) v (creator_id x)
        (owner_id x) (incident_id x) (assignees x) (description x)
        (source x) (priority x) (status x) (reminders x) (tickets x)
        (incident x)
  | SetCreatorId v =>
      mkTask (id x) (resolved_at x) (resolve_by x) (last_reminder_at x)
        v (owner_id x) (incident_id x) (assignees x) (description x)
        (source x) (priority x) (status x) (reminders x) (tickets x)
        (incident x)
  | SetOwnerId v =>
      mkTask (id x) (resolved_at x) (resolve_by x) (last_reminder_at x)
        (creator_id x) v (incident_id x) (assignees x) (description x)
        (source x) (priority x) (status x) (reminders x) (tickets x)
        (incident x)
  | SetIncident k v =>
      mkTask (id x) (resolved_at x) (resolve_by x) (last_reminder_at x)
        (creator_id x) (owner_id x) k (assignees x) (description x)
        (source x) (priority x) (status x) (reminders x) (tickets x) v
  | SetAssignees v =>
      mkTask (id x) (resolved_at x) (resolve_by x) (last_reminder_at x)
        (creator_id x) (owner_id x) (incident_id x) v (description x)
        (source x) (priority x) (status x) (reminders x) (tickets x)
        (incident x)
  | SetDescription v =>
      mkTask (id x) (resolved_at x) (resolve_by x) (last_reminder_at x)
        (creator_id x) (owner_id x) (incident_id x) (assignees x) v
        (source x) (priority x) (status x) (reminders x) (tickets x)
        (incident x)
  | SetSource v =>
      mkTask (id x) (resolved_at x) (resolve_by x) (last_reminder_at x)
        (creator_id x) (owner_id x) (incident_id x) (assignees x)
        (description x) v (priority x) (status x) (reminders x)
        (tickets x) (incident x)
  | SetPriority v =>
      mkTask (id x) (resolved_at x) (resolve_by x) (last_reminder_at x)
        (creator_id x) (owner_id x) (incident_id x) (assignees x)
        (description x) (source x) v (status x) (reminders x)
        (tickets x) (incident x)
  | SetStatus v =>
      mkTask (id x) (resolved_at x) (resolve_by x) (last_reminder_at x)
        (creator_id x) (owner_id x) (incident_id x) (assignees x)
        (description x) (source x) (priority x) v (reminders x)
        (tickets x) (incident x)
  | SetReminders v =>
      mkTask (id x) (resolved_at x) (resolve_by x) (last_reminder_at x)
        (creator_id x) (owner_id x) (incident_id x) (assignees x)
        (description x) (source x) (priority x) (status x) v
        (tickets x) (incident x)
  | SetTickets v =>
      mkTask (id x) (resolved_at x) (resolve_by x) (last_reminder_at x)
        (creator_id x) (owner_id x) (incident_id x) (assignees x)
        (description x) (source x) (priority x) (status x) (reminders x)
        v (incident x)
  end.

(** An update of a persisted Task: the writes of the change-set land on
    the loaded object, then the flush fires "before_update" on it and
    emits the UPDATE from what the listeners left. *)
Definition update (utcnow : Z) (changes : list assignment) (row : t)
  : t :=
  fire before_update utcnow (fold_left assign changes row).

Definition writes_status (a : assignment) : bool :=
  match a with SetStatus _ => true | _ => false end.

Definition writes_resolved_at (a : assignment) : bool :=
  match a with SetResolvedAt _ => true | _ => false end.

Definition writes_incident (a : assignment) : bool :=
  match a with SetIncident _ _ => true | _ => false end.

(** The updates a row goes through, oldest first, each with the reading
    of the clock at its flush. *)
Definition run (history : list (Z * list assignment)) (row : t) : t :=
  fold_left (fun x u => update u.1 u.2 x) history row.

End ORM.
End Task.

(** ** pydantic: validating one value

    The validators pydantic (v1) attaches to the annotations the shapes use.
    DispatchBase, the base class of every shape, is declared outside of these
    files; it is taken as pydantic's BaseModel with the default Config:
    unknown keys are ignored, a default is not validated, errors of all
    fields are collected. *)

Definition fail {A : Type} (k : error_kind) : V A := inl [([], k)].

(** Errors of a sub-value are reported below the location of the value. *)
Definition at_loc {A : Type} (l : loc_item) (v : V A) : V A :=
  match v with
  | inl es => inl (map (fun e : ErrorWrapper => (l :: e.1, e.2)) es)
  | inr a => inr a
  end.

(** Combining the outcomes of two fields: errors add up. *)
Definition ap {A B : Type} (f : V (A -> B)) (x : V A) : V B :=
  match f, x with
  | inr g, inr a => inr (g a)
  | inr _, inl es => inl es
  | inl es, inr _ => inl es
  | inl es1, inl es2 => inl (es1 ++ es2)%list
  end.

Definition pure {A : Type} (a : A) : V A := inr a.

Notation "f <*> x" := (ap f x) (at level 61, left associativity).

(** The errors of an outcome, none when it is a value. *)
Definition errors {A : Type} (v : V A) : list ErrorWrapper :=
  match v with
  | inl es => es
  | inr _ => []
  end.

(** [str]: a str is kept, a number is printed, the rest is refused. *)
Definition str_validator (v : pyval) : V string :=
  match v with
  | PStr s => inr s
  | PInt n => inr (pretty n)
  | PBool b => inr (if b then "True" else "False")
  | _ => fail StrError
  end.

(** [int]: an int is kept, a bool and a str go through [int(v)]. *)
Definition int_validator {E : Externals} (v : pyval) : V Z :=
  match v with
  | PInt n => inr n
  | PBool b => inr (if b then 1 else 0)
  | PStr s =>
      match int_of_str s with
      | Some n => inr n
      | None => fail IntegerError
      end
  | _ => fail IntegerError
  end.

(** [datetime]: a datetime is kept, the rest is parsed. *)
Definition datetime_validator {E : Externals} (v : pyval) : V Z :=
  match v with
  | PDatetime t => inr t
  | _ =>
      match parse_datetime v with
      | Some t => inr t
      | None => fail DateTimeError
      end
  end.

(** [TaskStatus]: [TaskStatus(v)], a ValueError becoming the error that
    lists the permitted values. *)
Definition TaskStatus_validator (v : pyval) : V TaskStatus.t :=
  let refused :=
    fail (EnumMemberError (map TaskStatus.value TaskStatus.members)) in
  match v with
  | PStr s =>
      match TaskStatus.of_value s with
      | Some m => inr m
      | None => refused
      end
  | _ => refused
  end.

(** [Optional[X]]: None is a value. *)
Definition optional {A : Type} (validate : pyval -> V A) (v : pyval)
  : V (option A) :=
  match v with
  | PNone => inr None
  | _ =>
      match validate v with
      | inr a => inr (Some a)
      | inl es => inl es
      end
  end.

(** An annotation that is not Optional refuses None. *)
Definition not_none {A : Type} (validate : pyval -> V A) (v : pyval) : V A :=
  match v with
  | PNone => fail NoneIsNotAllowedError
  | _ => validate v
  end.

(** [List[X]]: every item is validated at its index. *)
Fixpoint validate_items {A : Type} (validate : pyval -> V A) (i : nat)
    (xs : list pyval) : V (list A) :=
  match xs with
  | [] => inr []
  | x :: xs' =>
      pure cons <*> at_loc (LIndex i) (validate x)
                <*> validate_items validate (S i) xs'
  end.

Definition list_validator {A : Type} (validate : pyval -> V A) (v : pyval)
  : V (list A) :=
  match v with
  | PList xs => validate_items validate 0 xs
  | _ => fail ListError
  end.

(** The entries of a dict as keyword arguments. *)
Definition dict_of_items (items : list (string * pyval))
  : gmap string pyval :=
  fold_left (fun d kv => <[kv.1 := kv.2]> d) items ∅.

(** One item of the sequence [dict] is called on has to be an iterable of
    two items, a key and a value: a list of two, a str of two characters,
    a dict of two entries (which yields its two keys). *)
Definition item_pair (e : pyval) : option (pyval * pyval) :=
  match e with
  | PList [k; v] => Some (k, v)
  | PStr (String a (String b EmptyString)) =>
      Some (PStr (String a EmptyString), PStr (String b EmptyString))
  | PDict [(k1, _); (k2, _)] => Some (PStr k1, PStr k2)
  | _ => None
  end.

(** A list and a dict cannot be the key of a dict. *)
Definition hashable (k : pyval) : bool :=
  match k with
  | PList _ | PDict _ => false
  | _ => true
  end.

Definition str_key (k : pyval) : option string :=
  match k with
  | PStr s => Some s
  | _ => None
  end.

Inductive kwargs_error : Type :=
| NotADict            (* [dict(value)] raised TypeError or ValueError *)
| KeywordsNotStrings. (* the call with the entries as keywords raised *)

(** The keyword arguments a nested shape is constructed from: the
    entries of a dict; for any other value those of [dict(value)], the
    items of a sequence of pairs, a later pair replacing an earlier one
    with the same key.  The empty str is the empty sequence; a number, a
    datetime and None are not iterable. *)
Definition kwargs_of (v : pyval) : kwargs_error + gmap string pyval :=
  match v with
  | PDict items => inr (dict_of_items items)
  | PList es =>
      match mapM item_pair es with
      | None => inl NotADict
      | Some pairs =>
          if forallb (fun kv : pyval * pyval => hashable kv.1) pairs then
            match mapM (fun kv : pyval * pyval =>
                          k ← str_key kv.1; Some (k, kv.2)) pairs with
            | Some items => inr (dict_of_items items)
            | None => inl KeywordsNotStrings
            end
          else inl NotADict
      end
  | PStr EmptyString => inr ∅
  | _ => inl NotADict
  end.

(** A nested shape: pydantic's [Model.validate].  A dict is passed as
    keyword arguments; any other value goes through [dict(value)] first,
    whose TypeError or ValueError becomes the error that a dict is
    expected, while keywords that are not strings make the call itself
    raise. *)
Definition model_validator {A : Type} (init : gmap string pyval -> V A)
    (v : pyval) : V A :=
  match kwargs_of v with
  | inr d => init d
  | inl NotADict => fail DictError
  | inl KeywordsNotStrings => fail (TypeError "keywords must be strings")
  end.

(** ** pydantic: one field of a shape

    [default] is [None] for a required field.  A key that is absent takes
    the default as it is; a key that is present is validated. *)
Definition field {A : Type} (values : gmap string pyval) (name : string)
    (default : option A) (validate : pyval -> V A) : V A :=
  match values !! name with
  | Some v => at_loc (LField name) (validate v)
  | None =>
      match default with
      | Some a => inr a
      | None => inl [([LField name], MissingError)]
      end
  end.

(** A field with a validator declared [always=True]: the validation also
    runs on the default of an absent key. *)
Definition field_always {A : Type} (values : gmap string pyval)
    (name : string) (default : pyval) (validate : pyval -> V A) : V A :=
  at_loc (LField name) (validate (match values !! name with Some v => v | None => default end)).

(** ** Ticket shapes (ticket/models.py, lines 18-42) *)

Module TicketRead.
Section Shape.
Context {E : Externals}.

Record t : Type := mk {
  resource_id : option string;
  resource_type : option string;
  weblink : option string;
  description : option string
}.

(** [set_description(cls, v)] (lines 35-38), declared
    [@validator("description", pre=True, always=True)]. *)
Definition set_description (v : pyval) : pyval :=
  PStr INCIDENT_TICKET_DESCRIPTION.

(** [TicketRead] on the keyword arguments [values]: the three inherited fields, then
    [description: Optional[str]], whose value first goes through
    [set_description] and then through the validation of the annotation. *)
Definition init (values : gmap string pyval) : V t :=
  pure mk
    <*> field values "resource_id" (Some None) (optional str_validator)
    <*> field values "resource_type" (Some None) (optional str_validator)
    <*> field values "weblink" (Some None) (optional str_validator)
    <*> field_always values "description" PNone
          (fun v => optional str_validator (set_description v)).

End Shape.
End TicketRead.

(** ** Task shapes (task/models.py, lines 112-145) *)

Module TaskBase.
Section Shape.
Context {E : Externals}.

(** The fields of TaskBase.  A subclass that declares a field again
    changes its annotation and keeps its place; [C], [O] and [A] are the
    shapes of the creator, of the owner and of an assignee. *)
Record t (C O A : Type) : Type := mk {
  creator : option C;
  owner : option O;
  created_at : option Z;
  resolved_at : option Z;
  resolve_by : option Z;
  updated_at : option Z;
  status : TaskStatus.t;
  assignees : list (option A);
  source : option string;
  priority : option string;
  description : option string;
  tickets : option (list TicketRead.t);
  weblink : option string;
  incident : option IncidentReadNested;
  resource_id : option string
}.

(** The fields in the order of their declaration (lines 113-127);
    [assignees_default] is [None] where the field has no default. *)
Definition fields {C O A : Type}
    (creator_validate : pyval -> V C) (owner_validate : pyval -> V O)
    (assignee_validate : pyval -> V A)
    (assignees_default : option (list (option A)))
    (values : gmap string pyval) : V (t C O A) :=
  pure (mk C O A)
    <*> field values "creator" (Some None) (optional creator_validate)
    <*> field values "owner" (Some None) (optional owner_validate)
    <*> field values "created_at" (Some None) (optional datetime_validator)
    <*> field values "resolved_at" (Some None) (optional datetime_validator)
    <*> field values "resolve_by" (Some None) (optional datetime_validator)
    <*> field values "updated_at" (Some None) (optional datetime_validator)
    <*> field values "status" (Some TaskStatus.open)
          (not_none TaskStatus_validator)
    <*> field values "assignees" assignees_default
          (not_none (list_validator (optional assignee_validate)))
    <*> field values "source" (Some None) (optional str_validator)
    <*> field values "priority" (Some None) (optional str_validator)
    <*> field values "description" (Some None) (optional str_validator)
    <*> field values "tickets" (Some (Some []))
          (optional
             (list_validator (not_none (model_validator TicketRead.init))))
    <*> field values "weblink" (Some None) (optional str_validator)
    <*> field values "incident" (Some None)
          (optional IncidentReadNested_validate)
    <*> field values "resource_id" (Some None) (optional str_validator).

(** [TaskBase] on the keyword arguments [values] *)
Definition init (values : gmap string pyval)
  : V (t ParticipantRead ParticipantRead ParticipantRead) :=
  fields ParticipantRead_validate ParticipantRead_validate
    ParticipantRead_validate (Some []) values.

End Shape.

Arguments creator {E C O A} _.
Arguments owner {E C O A} _.
Arguments created_at {E C O A} _.
Arguments resolved_at {E C O A} _.
Arguments resolve_by {E C O A} _.
Arguments updated_at {E C O A} _.
Arguments status {E C O A} _.
Arguments assignees {E C O A} _.
Arguments source {E C O A} _.
Arguments priority {E C O A} _.
Arguments description {E C O A} _.
Arguments tickets {E C O A} _.
Arguments weblink {E C O A} _.
Arguments incident {E C O A} _.
Arguments resource_id {E C O A} _.
End TaskBase.

Module TaskCreate.
Section Shape.
Context {E : Externals}.

(** lines 130-135: [status], [assignees], [owner] and [creator] declared
    again, [resource_type] added. *)
Record t : Type := mk {
  base : TaskBase.t ParticipantUpdate ParticipantUpdate ParticipantUpdate;
  resource_type : option string
}.

Definition init (values : gmap string pyval) : V t :=
  pure mk
    <*> TaskBase.fields ParticipantUpdate_validate ParticipantUpdate_validate
          ParticipantUpdate_validate (Some []) values
    <*> field values "resource_type"
          (Some (Some INCIDENT_RESOURCE_INCIDENT_TASK))
          (optional str_validator).

End Shape.
End TaskCreate.

Module TaskUpdate.
Section Shape.
Context {E : Externals}.

(** lines 138-140: [assignees] declared again without a default, [owner]
    declared again. *)
Definition t : Type :=
  TaskBase.t ParticipantRead ParticipantUpdate ParticipantUpdate.

Definition init (values : gmap string pyval) : V t :=
  TaskBase.fields ParticipantRead_validate ParticipantUpdate_validate
    ParticipantUpdate_validate None values.

End Shape.
End TaskUpdate.

Module TaskRead.
Section Shape.
Context {E : Externals}.

(** lines 143-145: [id] and [project] added. *)
Record t : Type := mk {
  base : TaskBase.t ParticipantRead ParticipantRead ParticipantRead;
  id : Z;
  project : option ProjectRead
}.

Definition init (values : gmap string pyval) : V t :=
  pure mk
    <*> TaskBase.init values
    <*> field values "id" None (not_none int_validator)
    <*> field values "project" (Some None) (optional ProjectRead_validate).

End Shape.
End TaskRead.

(** ** The other Ticket shapes (ticket/models.py, lines 18-29 and 41-42) *)

Module TicketBase.
Record t : Type := mk {
  resource_id : option string;
  resource_type : option string;
  weblink : option string
}.

Definition init (values : gmap string pyval) : V t :=
  pure mk
    <*> field values "resource_id" (Some None) (optional str_validator)
    <*> field values "resource_type" (Some None) (optional str_validator)
    <*> field values "weblink" (Some None) (optional str_validator).
End TicketBase.

(** [class TicketCreate(TicketBase): pass] *)
Module TicketCreate.
Definition t : Type := TicketBase.t.
Definition init (values : gmap string pyval) : V t := TicketBase.init values.
End TicketCreate.

(** [class TicketUpdate(TicketBase): pass] *)
Module TicketUpdate.
Definition t : Type := TicketBase.t.
Definition init (values : gmap string pyval) : V t := TicketBase.init values.
End TicketUpdate.

Module TicketNested.
Section Shape.
Context {E : Externals}.

(** lines 41-42: [id: int] added to the fields of TicketBase. *)
Record t : Type := mk {
  base : TicketBase.t;
  id : Z
}.

Definition init (values : gmap string pyval) : V t :=
  pure mk
    <*> TicketBase.init values
    <*> field values "id" None (not_none int_validator).

End Shape.
End TicketNested.

(** ** A page of tasks (task/models.py, lines 148-150) *)

Module TaskPagination.
Section Shape.
Context {E : Externals}.

Record t : Type := mk {
  total : Z;
  items : list TaskRead.t
}.

Definition init (values : gmap string pyval) : V t :=
  pure mk
    <*> field values "total" None (not_none int_validator)
    <*> field values "items" (Some [])
          (not_none
             (list_validator (not_none (model_validator TaskRead.init)))).

End Shape.
End TaskPagination.

(** A construction is rejected at [loc] with [k] when it raises a
    ValidationError one of whose lines is [k] at [loc]. *)
Definition rejects {A : Type} (v : V A) (loc : list loc_item)
    (k : error_kind) : Prop :=
  exists es, v = inl es /\ (loc, k) ∈ es.

(** No line of the ValidationError, if there is one, is at or below the
    field [name]. *)
Definition no_error_at {A : Type} (v : V A) (name : string) : Prop :=
  forall l k, (LField name :: l, k) ∉ errors v.

(** [target.assignees = v] on a validated shape. *)
Definition TaskBase_set_assignees {E : Externals} {C O A : Type}
    (v : list (option A)) (x : TaskBase.t C O A) : TaskBase.t C O A :=
  TaskBase.mk C O A (TaskBase.creator x) (TaskBase.owner x)
    (TaskBase.created_at x) (TaskBase.resolved_at x) (TaskBase.resolve_by x)
    (TaskBase.updated_at x) (TaskBase.status x) v (TaskBase.source x)
    (TaskBase.priority x) (TaskBase.description x) (TaskBase.tickets x)
    (TaskBase.weblink x) (TaskBase.incident x) (TaskBase.resource_id x).

(** ** An instance of the collaborators

    Used to run the models on concrete inputs: a participant and a project
    are names, an incident is its key and its project, a nested shape is
    the dict it was given. *)
Definition example_externals : Externals := {|
  Participant := string;
  Project := string;
  Incident := Z * string;
  Incident_project := snd;
  ParticipantRead := gmap string pyval;
  ParticipantUpdate := gmap string pyval;
  IncidentReadNested := gmap string pyval;
  ProjectRead := gmap string pyval;
  ParticipantRead_validate := model_validator inr;
  ParticipantUpdate_validate := model_validator inr;
  IncidentReadNested_validate := model_validator inr;
  ProjectRead_validate := model_validator inr;
  parse_datetime := fun _ => None;
  int_of_str := fun _ => None;
  INCIDENT_TICKET_DESCRIPTION := "Ticket for tracking purposes.";
  INCIDENT_RESOURCE_INCIDENT_TASK := "google-docs-incident-task"
|}.

(** A resolved task of incident 7, whose project is "security". *)
Definition example_task : @Task.t example_externals :=
  @Task.mkTask example_externals
    (Some 1) (Some 500) (Some 900) None (Some 10) (Some 11) (Some 7)
    ["alice"; "bob"] (Some "rotate the keys") (Some "Incident")
    (Some "Low") (Some "Resolved") (Some true) [] (Some (7, "security")).

(** * Properties *)

(** ** The enumerations *)

Lemma TaskStatus_of_value_spec (s : string) (m : TaskStatus.t) :
  TaskStatus.of_value s = Some m <-> s = TaskStatus.value m.
Proof.
  change (TaskStatus.of_value s)
    with (if String.eqb "Open" s then Some TaskStatus.open
          else if String.eqb "Resolved" s then Some TaskStatus.resolved
          else None).
  destruct (String.eqb_spec "Open" s) as [<- | H1];
    [ destruct m; split; intros H; (reflexivity || discriminate H) | ].
  destruct (String.eqb_spec "Resolved" s) as [<- | H2];
    [ destruct m; split; intros H; (reflexivity || discriminate H) | ].
  split; [ discriminate | intros ->; destruct m; simpl in *; congruence ].
Qed.

Lemma TaskSource_of_value_spec (s : string) (m : TaskSource.t) :
  TaskSource.of_value s = Some m <-> s = TaskSource.value m.
Proof.
  change (TaskSource.of_value s)
    with (if String.eqb "Incident" s then Some TaskSource.incident
          else if String.eqb "Post Incident Review" s
               then Some TaskSource.post_incident_review
          else None).
  destruct (String.eqb_spec "Incident" s) as [<- | H1];
    [ destruct m; split; intros H; (reflexivity || discriminate H) | ].
  destruct (String.eqb_spec "Post Incident Review" s) as [<- | H2];
    [ destruct m; split; intros H; (reflexivity || discriminate H) | ].
  split; [ discriminate | intros ->; destruct m; simpl in *; congruence ].
Qed.

Lemma TaskPriority_of_value_spec (s : string) (m : TaskPriority.t) :
  TaskPriority.of_value s = Some m <-> s = TaskPriority.value m.
Proof.
  change (TaskPriority.of_value s)
    with (if String.eqb "Low" s then Some TaskPriority.low
          else if String.eqb "Medium" s then Some TaskPriority.medium
          else if String.eqb "High" s then Some TaskPriority.high
          else None).
  destruct (String.eqb_spec "Low" s) as [<- | H1];
    [ destruct m; split; intros H; (reflexivity || discriminate H) | ].
  destruct (String.eqb_spec "Medium" s) as [<- | H2];
    [ destruct m; split; intros H; (reflexivity || discriminate H) | ].
  destruct (String.eqb_spec "High" s) as [<- | H3];
    [ destruct m; split; intros H; (reflexivity || discriminate H) | ].
  split; [ discriminate | intros ->; destruct m; simpl in *; congruence ].
Qed.

(** C7: the members of the three enumerations have exactly the values
    "Open", "Resolved", "Incident", "Post Incident Review", "Low", "Medium"
    and "High"; looking a string up gives a member exactly when the string
    is that member's value, so a string that differs in case or spelling is
    no member; and the validation of a status turns the value of a member
    back into the member. *)
Theorem enum_values_exact :
  (TaskStatus.value TaskStatus.open = "Open"
   /\ TaskStatus.value TaskStatus.resolved = "Resolved"
   /\ TaskSource.value TaskSource.incident = "Incident"
   /\ TaskSource.value TaskSource.post_incident_review
      = "Post Incident Review"
   /\ TaskPriority.value TaskPriority.low = "Low"
   /\ TaskPriority.value TaskPriority.medium = "Medium"
   /\ TaskPriority.value TaskPriority.high = "High")
  /\ (forall s m, TaskStatus.of_value s = Some m <-> s = TaskStatus.value m)
  /\ (forall s m, TaskSource.of_value s = Some m <-> s = TaskSource.value m)
  /\ (forall s m,
        TaskPriority.of_value s = Some m <-> s = TaskPriority.value m)
  /\ (forall m,
        TaskStatus_validator (PStr (TaskStatus.value m)) = inr m)
  /\ (TaskStatus.of_value "open" = None
      /\ TaskStatus.of_value "RESOLVED" = None
      /\ TaskSource.of_value "incident" = None
      /\ TaskSource.of_value "Post-Incident Review" = None
      /\ TaskPriority.of_value "low" = None
      /\ TaskPriority.of_value "Hi" = None).
Proof.
  split; [ repeat split | ].
  split; [ exact TaskStatus_of_value_spec | ].
  split; [ exact TaskSource_of_value_spec | ].
  split; [ exact TaskPriority_of_value_spec | ].
  split; [ intros []; reflexivity | repeat split ].
Qed.

(** ** The default due date *)

Lemma datetime_add_in_range (t delta : Z) :
  datetime.in_range (t + delta) -> datetime.add t delta = inr (t + delta).
Proof.
  intros [Hlo Hhi]. unfold datetime.add.
  apply Z.leb_le in Hlo. apply Z.leb_le in Hhi.
  rewrite Hlo, Hhi. reflexivity.
Qed.

Lemma py_eq_str_true (v : pyval) (s : string) :
  py_eq_str v s = true <-> v = PStr s.
Proof.
  destruct v; simpl; try (split; intros H; discriminate H).
  destruct (String.eqb_spec s0 s) as [-> | Hne]; split; intros H;
    try reflexivity; try discriminate H.
  injection H as ->. contradiction.
Qed.

Lemma py_eq_str_false (v : pyval) (s : string) :
  v <> PStr s -> py_eq_str v s = false.
Proof.
  intros Hne. destruct (py_eq_str v s) eqn:Heq; [ | reflexivity ].
  apply py_eq_str_true in Heq. contradiction.
Qed.

(** C2: when a Task is inserted without a due date (the parameters of the
    INSERT carry no [resolve_by], or None), the stored [resolve_by] is the
    reading of the clock plus 1 day when [source] is "Incident", plus 7 days
    when it is "Post Incident Review", and plus 1 day for every other value
    of [source]; the sum is a datetime, that is, it lies within the years
    datetime arithmetic covers. *)
Theorem resolve_by_default
    (context : gmap string pyval) (utcnow : Z) (task_source : pyval) :
  context !! "resolve_by" = None \/ context !! "resolve_by" = Some PNone ->
  context !! "source" = Some task_source ->
  (task_source = PStr (TaskSource.value TaskSource.incident) ->
   datetime.in_range (utcnow + datetime.timedelta_days 1) ->
   resolve_by_on_insert context utcnow
   = inr (PDatetime (utcnow + datetime.timedelta_days 1)))
  /\ (task_source = PStr (TaskSource.value TaskSource.post_incident_review) ->
      datetime.in_range (utcnow + datetime.timedelta_days 7) ->
      resolve_by_on_insert context utcnow
      = inr (PDatetime (utcnow + datetime.timedelta_days 7)))
  /\ (task_source <> PStr (TaskSource.value TaskSource.incident) ->
      task_source <> PStr (TaskSource.value TaskSource.post_incident_review) ->
      datetime.in_range (utcnow + datetime.timedelta_days 1) ->
      resolve_by_on_insert context utcnow
      = inr (PDatetime (utcnow + datetime.timedelta_days 1))).
Proof.
  intros Hnone Hsource.
  assert (Hdefault : resolve_by_on_insert context utcnow
                     = match default_resolution_time context utcnow with
                       | inr t => inr (PDatetime t)
                       | inl e => inl e
                       end).
  { unfold resolve_by_on_insert. destruct Hnone as [-> | ->]; reflexivity. }
  rewrite Hdefault. unfold default_resolution_time. rewrite Hsource.
  split; [ | split ].
  - intros -> Hrange. rewrite (proj2 (py_eq_str_true _ _) eq_refl).
    rewrite (datetime_add_in_range _ _ Hrange). reflexivity.
  - intros -> Hrange.
    rewrite (py_eq_str_false _ (TaskSource.value TaskSource.incident))
      by discriminate.
    rewrite (proj2 (py_eq_str_true _ _) eq_refl).
    rewrite (datetime_add_in_range _ _ Hrange). reflexivity.
  - intros Hne1 Hne7 Hrange.
    rewrite (py_eq_str_false _ _ Hne1), (py_eq_str_false _ _ Hne7).
    rewrite (datetime_add_in_range _ _ Hrange). reflexivity.
Qed.

(** An insert on 2021-01-01 (day 737791 of the calendar) with the source
    None, which is neither member: due one day later. *)
Lemma resolve_by_default_witness :
  resolve_by_on_insert {[ "source" := PNone ]} (737790 * 86400000000)
  = inr (PDatetime (737791 * 86400000000)).
Proof.
  refine (proj2 (proj2 (resolve_by_default
            {[ "source" := PNone ]} (737790 * 86400000000) PNone _ _)) _ _ _).
  - left. reflexivity.
  - reflexivity.
  - discriminate.
  - discriminate.
  - vm_compute. split; discriminate.
Defined.

(** ** The derived project *)

(** C8: the [project] of a Task that has an owning incident is the project
    of that incident, and it is read through the incident alone: every Task
    of the same incident has the same project, whatever its columns hold. *)
Theorem project_pass_through {E : Externals} (task : Task.t) (i : Incident) :
  Task.incident task = Some i ->
  Task.project task = inr (Incident_project i)
  /\ (forall other : Task.t,
        Task.incident other = Some i ->
        Task.project other = Task.project task).
Proof.
  intros Hinc. unfold Task.project. rewrite Hinc.
  split; [ reflexivity | intros other ->; reflexivity ].
Qed.

Lemma project_pass_through_witness :
  Task.project example_task = inr "security"
  /\ (forall other : @Task.t example_externals,
        Task.incident other = Some (7, "security") ->
        Task.project other = Task.project example_task).
Proof.
  apply (@project_pass_through example_externals example_task (7, "security")).
  reflexivity.
Defined.

(** ** The listener of "before_update" *)

Section Listener.
Context {E : Externals}.

Lemma status_is_true (x : option string) (m : TaskStatus.t) :
  Task.status_is x m = true <-> x = Some (TaskStatus.value m).
Proof.
  destruct x as [s | ]; simpl; [ | split; intros H; discriminate H ].
  destruct (String.eqb_spec s (TaskStatus.value m)) as [-> | Hne];
    split; intros H; try reflexivity; try discriminate H.
  injection H as ->. contradiction.
Qed.

Lemma status_is_false (x : option string) (m : TaskStatus.t) :
  x <> Some (TaskStatus.value m) -> Task.status_is x m = false.
Proof.
  intros Hne. destruct (Task.status_is x m) eqn:Heq; [ | reflexivity ].
  apply status_is_true in Heq. contradiction.
Qed.

Lemma fire_before_update (utcnow : Z) (target : Task.t) :
  Task.fire Task.before_update utcnow target = Task._resolved_at utcnow target.
Proof. reflexivity. Qed.

Lemma fire_other_event (ev : Task.mapper_event) (utcnow : Z) (target : Task.t) :
  ev <> Task.before_update -> Task.fire ev utcnow target = target.
Proof. intros Hne. destruct ev; try reflexivity. contradiction. Qed.

Lemma _resolved_at_resolved (utcnow : Z) (target : Task.t) :
  Task.status target = Some (TaskStatus.value TaskStatus.resolved) ->
  Task._resolved_at utcnow target = Task.set_resolved_at (Some utcnow) target.
Proof.
  intros Hst. unfold Task._resolved_at.
  rewrite (proj2 (status_is_true _ _) Hst). reflexivity.
Qed.

Lemma _resolved_at_other (utcnow : Z) (target : Task.t) :
  Task.status target <> Some (TaskStatus.value TaskStatus.resolved) ->
  Task._resolved_at utcnow target = target.
Proof.
  intros Hst. unfold Task._resolved_at.
  rewrite (status_is_false _ _ Hst). reflexivity.
Qed.

Lemma _resolved_at_status (utcnow : Z) (target : Task.t) :
  Task.status (Task._resolved_at utcnow target) = Task.status target.
Proof.
  unfold Task._resolved_at.
  destruct (Task.status_is _ _); reflexivity.
Qed.

(** Writes that do not name a column leave it as it was. *)
Lemma writes_keep_resolved_at (changes : list Task.assignment) (row : Task.t) :
  forallb (fun a => negb (Task.writes_resolved_at a)) changes = true ->
  Task.resolved_at (fold_left Task.assign changes row) = Task.resolved_at row.
Proof.
  revert row. induction changes as [ | a changes IH]; intros row Hall.
  - reflexivity.
  - simpl in Hall. apply andb_prop in Hall as [Ha Hrest].
    simpl. rewrite (IH _ Hrest). destruct a; try reflexivity.
    discriminate Ha.
Qed.

Lemma writes_keep_status (changes : list Task.assignment) (row : Task.t) :
  forallb (fun a => negb (Task.writes_status a)) changes = true ->
  Task.status (fold_left Task.assign changes row) = Task.status row.
Proof.
  revert row. induction changes as [ | a changes IH]; intros row Hall.
  - reflexivity.
  - simpl in Hall. apply andb_prop in Hall as [Ha Hrest].
    simpl. rewrite (IH _ Hrest). destruct a; try reflexivity.
    discriminate Ha.
Qed.

(** C1: the rule follows the pending status alone.  In an update whose
    pending status is "Resolved" the listener sets [resolved_at] of the
    pending object to the reading of the clock and touches nothing else,
    whatever the status of the row was: on a transition to "Resolved", and
    just as well on an update of a row that is "Resolved" already and
    whose status is not written.  In an update whose pending status is
    anything else the listener leaves the pending object as it is, so
    that, the change-set not writing [resolved_at] itself, the column
    keeps the value of the row.  The stamp is only ever written under a
    pending status "Resolved", and no event other than "before_update"
    runs the rule. *)
Theorem resolved_at_follows_pending_status
    (utcnow : Z) (changes : list Task.assignment) (row : Task.t) :
  let target := fold_left Task.assign changes row in
  let after := Task.update utcnow changes row in
  (Task.status target = Some (TaskStatus.value TaskStatus.resolved) ->
   after = Task.set_resolved_at (Some utcnow) target
   /\ Task.resolved_at after = Some utcnow)
  /\ (Task.status row <> Some (TaskStatus.value TaskStatus.resolved) ->
      Task.status target = Some (TaskStatus.value TaskStatus.resolved) ->
      Task.resolved_at after = Some utcnow)
  /\ (Task.status row = Some (TaskStatus.value TaskStatus.resolved) ->
      forallb (fun a => negb (Task.writes_status a)) changes = true ->
      Task.resolved_at after = Some utcnow)
  /\ (Task.status target <> Some (TaskStatus.value TaskStatus.resolved) ->
      after = target
      /\ (forallb (fun a => negb (Task.writes_resolved_at a)) changes = true ->
          Task.resolved_at after = Task.resolved_at row))
  /\ (Task.resolved_at after <> Task.resolved_at target ->
      Task.status target = Some (TaskStatus.value TaskStatus.resolved))
  /\ (forall ev, ev <> Task.before_update ->
        Task.fire ev utcnow target = target).
Proof.
  intros target after. subst after. unfold Task.update.
  fold target. rewrite fire_before_update.
  assert (Hstamp :
            Task.status target = Some (TaskStatus.value TaskStatus.resolved) ->
            Task._resolved_at utcnow target
            = Task.set_resolved_at (Some utcnow) target).
  { intros Hst. apply _resolved_at_resolved, Hst. }
  split; [ | split; [ | split; [ | split; [ | split ] ] ] ].
  - intros Hst. rewrite (Hstamp Hst). split; reflexivity.
  - intros _ Hst. rewrite (Hstamp Hst). reflexivity.
  - intros Hrow Hall. rewrite Hstamp; [ reflexivity | ].
    subst target. rewrite (writes_keep_status _ _ Hall). exact Hrow.
  - intros Hst. rewrite (_resolved_at_other _ _ Hst).
    split; [ reflexivity | ].
    intros Hall. subst target. apply writes_keep_resolved_at, Hall.
  - intros Hchanged.
    destruct (Task.status_is (Task.status target) TaskStatus.resolved) eqn:Heq.
    + apply status_is_true, Heq.
    + exfalso. apply Hchanged. unfold Task._resolved_at.
      rewrite Heq. reflexivity.
  - intros ev Hev. apply fire_other_event, Hev.
Qed.

(** C6: in an update that takes a Task from "Resolved" back to "Open" the
    listener leaves the pending object as it is; the change-set not writing
    [resolved_at] itself, the stamp of the earlier resolution is still the
    value of the column after the update, it is not cleared. *)
Theorem reopen_keeps_resolved_at
    (utcnow : Z) (changes : list Task.assignment) (row : Task.t) :
  Task.status row = Some (TaskStatus.value TaskStatus.resolved) ->
  Task.status (fold_left Task.assign changes row)
  = Some (TaskStatus.value TaskStatus.open) ->
  Task.update utcnow changes row = fold_left Task.assign changes row
  /\ (forallb (fun a => negb (Task.writes_resolved_at a)) changes = true ->
      Task.resolved_at (Task.update utcnow changes row) = Task.resolved_at row).
Proof.
  intros _ Hopen. unfold Task.update. rewrite fire_before_update.
  assert (Hsame : Task._resolved_at utcnow (fold_left Task.assign changes row)
                  = fold_left Task.assign changes row).
  { apply _resolved_at_other. rewrite Hopen. discriminate. }
  rewrite Hsame. split; [ reflexivity | apply writes_keep_resolved_at ].
Qed.

(** C9: every update whose pending status is "Resolved" stamps
    [resolved_at] with the reading of the clock, whatever the column held;
    so when a Task has been resolved by one update, a later update that
    does not write the status stamps it again, and at a different reading
    of the clock the resolution timestamp changes. *)
Theorem resolved_task_restamped
    (t1 t2 : Z) (changes1 changes2 : list Task.assignment) (row : Task.t) :
  Task.status (fold_left Task.assign changes1 row)
  = Some (TaskStatus.value TaskStatus.resolved) ->
  forallb (fun a => negb (Task.writes_status a)) changes2 = true ->
  let row1 := Task.update t1 changes1 row in
  let row2 := Task.update t2 changes2 row1 in
  Task.resolved_at row1 = Some t1
  /\ Task.status row1 = Some (TaskStatus.value TaskStatus.resolved)
  /\ Task.resolved_at row2 = Some t2
  /\ (t1 <> t2 -> Task.resolved_at row2 <> Task.resolved_at row1).
Proof.
  intros Hst Hall row1 row2.
  assert (H1 : Task.resolved_at row1 = Some t1).
  { subst row1. unfold Task.update. rewrite fire_before_update.
    rewrite (_resolved_at_resolved _ _ Hst). reflexivity. }
  assert (Hst1 : Task.status row1
                 = Some (TaskStatus.value TaskStatus.resolved)).
  { subst row1. unfold Task.update. rewrite fire_before_update.
    rewrite _resolved_at_status. exact Hst. }
  assert (H2 : Task.resolved_at row2 = Some t2).
  { subst row2. unfold Task.update. rewrite fire_before_update.
    rewrite _resolved_at_resolved; [ reflexivity | ].
    rewrite (writes_keep_status _ _ Hall). exact Hst1. }
  repeat split; try assumption.
  rewrite H1, H2. intros Hne Heq. injection Heq as Heq. congruence.
Qed.

End Listener.

Lemma reopen_keeps_resolved_at_witness :
  Task.resolved_at
    (Task.update 700 [Task.SetStatus (Some "Open")] example_task)
  = Some 500.
Proof.
  exact (proj2 (@reopen_keeps_resolved_at example_externals 700
                  [Task.SetStatus (Some "Open")] example_task
                  eq_refl eq_refl) eq_refl).
Defined.

(** The row is "Resolved" with the stamp 500; an update at 700 writes the
    description and not the status, so the status makes no transition,
    and the stamp is written all the same. *)
Lemma restamped_without_transition :
  Task.status example_task = Some "Resolved"
  /\ Task.resolved_at example_task = Some 500
  /\ Task.status
       (fold_left Task.assign [Task.SetDescription (Some "done")]
          example_task)
     = Some "Resolved"
  /\ Task.resolved_at
       (Task.update 700 [Task.SetDescription (Some "done")] example_task)
     = Some 700.
Proof. repeat split. Qed.

Lemma resolved_task_restamped_witness :
  let row1 := Task.update 600 [Task.SetPriority (Some "High")] example_task in
  let row2 := Task.update 700 [Task.SetDescription (Some "done")] row1 in
  Task.resolved_at row1 = Some 600
  /\ Task.status row1 = Some "Resolved"
  /\ Task.resolved_at row2 = Some 700
  /\ (600 <> 700 -> Task.resolved_at row2 <> Task.resolved_at row1).
Proof.
  exact (@resolved_task_restamped example_externals 600 700
           [Task.SetPriority (Some "High")]
           [Task.SetDescription (Some "done")] example_task
           eq_refl eq_refl).
Defined.

(** ** Validation: how outcomes combine *)

Section Outcomes.
Context {A B : Type}.

Lemma ap_inr_inv (f : V (A -> B)) (x : V A) (b : B) :
  f <*> x = inr b -> exists g a, f = inr g /\ x = inr a /\ b = g a.
Proof.
  destruct f as [es1 | g], x as [es2 | a]; simpl; intros H;
    try discriminate H.
  injection H as <-. exists g, a. repeat split.
Qed.

Lemma errors_ap (f : V (A -> B)) (x : V A) :
  errors (f <*> x) = (errors f ++ errors x)%list.
Proof.
  destruct f as [es1 | g], x as [es2 | a]; simpl; try reflexivity.
  symmetry. apply app_nil_r.
Qed.

Lemma rejects_ap_l (f : V (A -> B)) (x : V A) loc k :
  rejects f loc k -> rejects (f <*> x) loc k.
Proof.
  intros (es & -> & Hin). destruct x as [es2 | a]; simpl.
  - exists (es ++ es2)%list. split; [ reflexivity | ].
    apply elem_of_app. left. exact Hin.
  - exists es. split; [ reflexivity | exact Hin ].
Qed.

Lemma rejects_ap_r (f : V (A -> B)) (x : V A) loc k :
  rejects x loc k -> rejects (f <*> x) loc k.
Proof.
  intros (es & -> & Hin). destruct f as [es1 | g]; simpl.
  - exists (es1 ++ es)%list. split; [ reflexivity | ].
    apply elem_of_app. right. exact Hin.
  - exists es. split; [ reflexivity | exact Hin ].
Qed.

End Outcomes.

Lemma field_insert_ne {A : Type} (values : gmap string pyval)
    (key name : string) (v : pyval) (default : option A)
    (validate : pyval -> V A) :
  key <> name ->
  field (<[key := v]> values) name default validate
  = field values name default validate.
Proof.
  intros Hne. unfold field. rewrite lookup_insert_ne by exact Hne.
  reflexivity.
Qed.

Lemma field_present {A : Type} (values : gmap string pyval) (name : string)
    (v : pyval) (default : option A) (validate : pyval -> V A) :
  values !! name = Some v ->
  field values name default validate = at_loc (LField name) (validate v).
Proof. intros Hget. unfold field. rewrite Hget. reflexivity. Qed.

Lemma field_absent {A : Type} (values : gmap string pyval) (name : string)
    (a : A) (validate : pyval -> V A) :
  values !! name = None -> field values name (Some a) validate = inr a.
Proof. intros Hget. unfold field. rewrite Hget. reflexivity. Qed.

(** Every error of a field is located at or below the field. *)
Lemma field_errors_head {A : Type} (values : gmap string pyval)
    (name : string) (default : option A) (validate : pyval -> V A)
    (e : ErrorWrapper) :
  e ∈ errors (field values name default validate) ->
  exists l, e.1 = LField name :: l.
Proof.
  unfold field. destruct (values !! name) as [v | ].
  - destruct (validate v) as [es | a]; simpl.
    + intros Hin. apply list_elem_of_fmap in Hin as (e' & -> & _).
      exists e'.1. reflexivity.
    + intros Hin. apply elem_of_nil in Hin. contradiction.
  - destruct default as [a | ]; simpl; intros Hin.
    + apply elem_of_nil in Hin. contradiction.
    + apply list_elem_of_singleton in Hin as ->. exists []. reflexivity.
Qed.

(** ** The Task shapes *)

Section Shapes.
Context {E : Externals}.

(** Moving along the chain of fields to the one that is refused. *)
Ltac rejects_in_chain H :=
  first [ apply rejects_ap_r; exact H
        | apply rejects_ap_l; rejects_in_chain H ].

(** Taking a constructed shape apart into the outcomes of its fields. *)
Ltac invert_chain H :=
  repeat
    (let g := fresh "g" in
     let a := fresh "a" in
     let Ha := fresh "Hfield" in
     let Hb := fresh "Hshape" in
     apply ap_inr_inv in H as (g & a & H & Ha & Hb));
  injection H as <-.

Section Fields.
Context {C O A : Type}.
Variables (creator_validate : pyval -> V C) (owner_validate : pyval -> V O)
          (assignee_validate : pyval -> V A).
Variable assignees_default : option (list (option A)).

#[local] Abbreviation fields :=
  (TaskBase.fields creator_validate owner_validate assignee_validate
     assignees_default).

Lemma status_field_refused (values : gmap string pyval) (v : pyval) :
  values !! "status" = Some v ->
  (forall m, v <> PStr (TaskStatus.value m)) ->
  exists k,
    (v <> PNone ->
     k = EnumMemberError (map TaskStatus.value TaskStatus.members))
    /\ (v = PNone -> k = NoneIsNotAllowedError)
    /\ field values "status" (Some TaskStatus.open)
         (not_none TaskStatus_validator)
       = inl [([LField "status"], k)].
Proof.
  intros Hget Hnot. rewrite (field_present _ _ _ _ _ Hget).
  destruct v; simpl;
    try (eexists; split; [ intros _; reflexivity | ];
         split; [ intros Habs; discriminate Habs | reflexivity ]).
  - exists NoneIsNotAllowedError.
    split; [ intros Habs; contradiction | ]. split; reflexivity.
  - unfold TaskStatus_validator.
    destruct (TaskStatus.of_value s) as [m | ] eqn:Hof.
    + apply TaskStatus_of_value_spec in Hof. subst s.
      exfalso. exact (Hnot m eq_refl).
    + eexists. split; [ intros _; reflexivity | ].
      split; [ intros Habs; discriminate Habs | reflexivity ].
Qed.

Lemma fields_status_rejected (values : gmap string pyval) (v : pyval) :
  values !! "status" = Some v ->
  (forall m, v <> PStr (TaskStatus.value m)) ->
  exists k,
    (v <> PNone ->
     k = EnumMemberError (map TaskStatus.value TaskStatus.members))
    /\ (v = PNone -> k = NoneIsNotAllowedError)
    /\ rejects (fields values) [LField "status"] k.
Proof.
  intros Hget Hnot.
  destruct (status_field_refused values v Hget Hnot) as (k & Hk & Hk' & Hf).
  exists k. split; [ exact Hk | ]. split; [ exact Hk' | ].
  assert (Hrej : rejects (field values "status" (Some TaskStatus.open)
                            (not_none TaskStatus_validator))
                   [LField "status"] k).
  { exists [([LField "status"], k)]. split; [ exact Hf | ].
    apply list_elem_of_singleton. reflexivity. }
  unfold TaskBase.fields. rejects_in_chain Hrej.
Qed.

Lemma fields_assignees_missing (values : gmap string pyval) :
  assignees_default = None ->
  values !! "assignees" = None ->
  rejects (fields values) [LField "assignees"] MissingError.
Proof.
  intros Hdefault Hget.
  assert (Hrej : rejects (field values "assignees" assignees_default
                            (not_none
                               (list_validator (optional assignee_validate))))
                   [LField "assignees"] MissingError).
  { unfold field. rewrite Hget, Hdefault.
    exists [([LField "assignees"], MissingError)].
    split; [ reflexivity | apply list_elem_of_singleton; reflexivity ]. }
  unfold TaskBase.fields. rejects_in_chain Hrej.
Qed.

(** A constructed shape holds, field by field, what the validation of the
    field gave. *)
Lemma fields_inr_inv (values : gmap string pyval) (r : TaskBase.t C O A) :
  fields values = inr r ->
  field values "creator" (Some None) (optional creator_validate)
  = inr (TaskBase.creator r)
  /\ field values "owner" (Some None) (optional owner_validate)
     = inr (TaskBase.owner r)
  /\ field values "created_at" (Some None) (optional datetime_validator)
     = inr (TaskBase.created_at r)
  /\ field values "resolved_at" (Some None) (optional datetime_validator)
     = inr (TaskBase.resolved_at r)
  /\ field values "resolve_by" (Some None) (optional datetime_validator)
     = inr (TaskBase.resolve_by r)
  /\ field values "updated_at" (Some None) (optional datetime_validator)
     = inr (TaskBase.updated_at r)
  /\ field values "status" (Some TaskStatus.open)
       (not_none TaskStatus_validator)
     = inr (TaskBase.status r)
  /\ field values "assignees" assignees_default
       (not_none (list_validator (optional assignee_validate)))
     = inr (TaskBase.assignees r)
  /\ field values "source" (Some None) (optional str_validator)
     = inr (TaskBase.source r)
  /\ field values "priority" (Some None) (optional str_validator)
     = inr (TaskBase.priority r)
  /\ field values "description" (Some None) (optional str_validator)
     = inr (TaskBase.description r)
  /\ field values "tickets" (Some (Some []))
       (optional
          (list_validator (not_none (model_validator TicketRead.init))))
     = inr (TaskBase.tickets r)
  /\ field values "weblink" (Some None) (optional str_validator)
     = inr (TaskBase.weblink r)
  /\ field values "incident" (Some None)
       (optional IncidentReadNested_validate)
     = inr (TaskBase.incident r)
  /\ field values "resource_id" (Some None) (optional str_validator)
     = inr (TaskBase.resource_id r).
Proof.
  intros H. unfold TaskBase.fields in H. invert_chain H. subst. simpl.
  repeat split; assumption.
Qed.

(** The errors of a construction are those of its fields, in the order of
    the fields. *)
Lemma fields_errors (values : gmap string pyval) :
  errors (fields values)
  = ((((((((((((((([]
     ++ errors (field values "creator" (Some None)
                  (optional creator_validate)))
     ++ errors (field values "owner" (Some None) (optional owner_validate)))
     ++ errors (field values "created_at" (Some None)
                  (optional datetime_validator)))
     ++ errors (field values "resolved_at" (Some None)
                  (optional datetime_validator)))
     ++ errors (field values "resolve_by" (Some None)
                  (optional datetime_validator)))
     ++ errors (field values "updated_at" (Some None)
                  (optional datetime_validator)))
     ++ errors (field values "status" (Some TaskStatus.open)
                  (not_none TaskStatus_validator)))
     ++ errors (field values "assignees" assignees_default
                  (not_none (list_validator (optional assignee_validate)))))
     ++ errors (field values "source" (Some None) (optional str_validator)))
     ++ errors (field values "priority" (Some None)
                  (optional str_validator)))
     ++ errors (field values "description" (Some None)
                  (optional str_validator)))
     ++ errors (field values "tickets" (Some (Some []))
                  (optional
                     (list_validator
                        (not_none (model_validator TicketRead.init))))))
     ++ errors (field values "weblink" (Some None) (optional str_validator)))
     ++ errors (field values "incident" (Some None)
                  (optional IncidentReadNested_validate)))
     ++ errors (field values "resource_id" (Some None)
                  (optional str_validator)))%list.
Proof. unfold TaskBase.fields. rewrite !errors_ap. reflexivity. Qed.

(** An error located at or below a field comes from that field. *)
Ltac error_origin Hin :=
  rewrite fields_errors in Hin;
  repeat (apply elem_of_app in Hin as [Hin | Hin]);
  try (apply elem_of_nil in Hin; contradiction);
  try (apply field_errors_head in Hin as [? Hin]; simpl in Hin;
       discriminate Hin).

Lemma fields_errors_source (values : gmap string pyval) l k :
  (LField "source" :: l, k) ∈ errors (fields values) ->
  (LField "source" :: l, k)
  ∈ errors (field values "source" (Some None) (optional str_validator)).
Proof. intros Hin. error_origin Hin. exact Hin. Qed.

Lemma fields_errors_priority (values : gmap string pyval) l k :
  (LField "priority" :: l, k) ∈ errors (fields values) ->
  (LField "priority" :: l, k)
  ∈ errors (field values "priority" (Some None) (optional str_validator)).
Proof. intros Hin. error_origin Hin. exact Hin. Qed.

Lemma fields_errors_assignees (values : gmap string pyval) l k :
  (LField "assignees" :: l, k) ∈ errors (fields values) ->
  (LField "assignees" :: l, k)
  ∈ errors (field values "assignees" assignees_default
              (not_none (list_validator (optional assignee_validate)))).
Proof. intros Hin. error_origin Hin. exact Hin. Qed.

End Fields.
Lemma field_delete_ne {A : Type} (values : gmap string pyval)
    (key name : string) (default : option A) (validate : pyval -> V A) :
  key <> name ->
  field (delete key values) name default validate
  = field values name default validate.
Proof.
  intros Hne. unfold field. rewrite lookup_delete_ne by exact Hne.
  reflexivity.
Qed.

(** ** The Ticket read shape *)

Lemma description_field (values : gmap string pyval) :
  field_always values "description" PNone
    (fun v => optional str_validator (TicketRead.set_description v))
  = inr (Some INCIDENT_TICKET_DESCRIPTION).
Proof. reflexivity. Qed.

(** C3: whatever is supplied for [description] when a Ticket read shape is
    constructed -- the string "anything", any other value, or nothing -- a
    shape that is constructed holds the constant INCIDENT_TICKET_DESCRIPTION
    in [description]; the supplied value has no part in the outcome, which
    is that of the same input without the key; and the constructions from
    "anything" alone and from no input at all succeed with the constant. *)
Theorem ticket_read_description (values : gmap string pyval) :
  (forall r, TicketRead.init values = inr r ->
     TicketRead.description r = Some INCIDENT_TICKET_DESCRIPTION)
  /\ (forall v,
        TicketRead.init (<["description" := v]> values)
        = TicketRead.init (delete "description" values))
  /\ TicketRead.init {[ "description" := PStr "anything" ]}
     = inr (TicketRead.mk None None None (Some INCIDENT_TICKET_DESCRIPTION))
  /\ TicketRead.init ∅
     = inr (TicketRead.mk None None None (Some INCIDENT_TICKET_DESCRIPTION)).
Proof.
  split; [ | split; [ | split; reflexivity ] ].
  - intros r H. unfold TicketRead.init in H.
    rewrite description_field in H. invert_chain H. subst.
    match goal with
    | Hd : inr _ = inr _ |- _ => injection Hd as <-
    end.
    reflexivity.
  - intros v. unfold TicketRead.init.
    rewrite !description_field.
    rewrite !field_insert_ne by discriminate.
    rewrite !field_delete_ne by discriminate.
    reflexivity.
Qed.

(** ** Enumerated fields of the Task shapes *)

Lemma str_field_accepts (values : gmap string pyval) (name s : string) :
  values !! name = Some (PStr s) ->
  field values name (Some None) (optional str_validator) = inr (Some s).
Proof. intros Hget. rewrite (field_present _ _ _ _ _ Hget). reflexivity. Qed.

(** C4: in each of the create, update and read shapes of a Task,
    a value supplied for [status] that is not the value of a member of
    TaskStatus makes the construction fail with a ValidationError that has
    a line at [status] -- the enumeration error listing "Open" and
    "Resolved", or for None the refusal of None; [source] and [priority]
    are annotated Optional[str]: a string supplied for them, member of
    TaskSource or TaskPriority or not, raises no error at the field and is
    what the constructed shape holds. *)
Theorem task_shape_enum_fields :
  (forall (values : gmap string pyval) (v : pyval),
     values !! "status" = Some v ->
     (forall m, v <> PStr (TaskStatus.value m)) ->
     exists k,
       (v <> PNone -> k = EnumMemberError ["Open"; "Resolved"])
       /\ (v = PNone -> k = NoneIsNotAllowedError)
       /\ rejects (TaskCreate.init values) [LField "status"] k
       /\ rejects (TaskUpdate.init values) [LField "status"] k
       /\ rejects (TaskRead.init values) [LField "status"] k)
  /\ (forall (values : gmap string pyval) (s : string),
        values !! "source" = Some (PStr s) ->
        no_error_at (TaskCreate.init values) "source"
        /\ no_error_at (TaskUpdate.init values) "source"
        /\ no_error_at (TaskRead.init values) "source"
        /\ (forall r, TaskCreate.init values = inr r ->
              TaskBase.source (TaskCreate.base r) = Some s)
        /\ (forall r, TaskUpdate.init values = inr r ->
              TaskBase.source r = Some s)
        /\ (forall r, TaskRead.init values = inr r ->
              TaskBase.source (TaskRead.base r) = Some s))
  /\ (forall (values : gmap string pyval) (s : string),
        values !! "priority" = Some (PStr s) ->
        no_error_at (TaskCreate.init values) "priority"
        /\ no_error_at (TaskUpdate.init values) "priority"
        /\ no_error_at (TaskRead.init values) "priority"
        /\ (forall r, TaskCreate.init values = inr r ->
              TaskBase.priority (TaskCreate.base r) = Some s)
        /\ (forall r, TaskUpdate.init values = inr r ->
              TaskBase.priority r = Some s)
        /\ (forall r, TaskRead.init values = inr r ->
              TaskBase.priority (TaskRead.base r) = Some s)).
Proof.
  split; [ | split ].
  - intros values v Hget Hnot.
    destruct (fields_status_rejected ParticipantUpdate_validate
                ParticipantUpdate_validate ParticipantUpdate_validate
                (Some []) values v Hget Hnot) as (k & Hk & Hk' & Hcreate).
    destruct (fields_status_rejected ParticipantRead_validate
                ParticipantUpdate_validate ParticipantUpdate_validate
                None values v Hget Hnot) as (k2 & Hk2 & Hk2' & Hupdate).
    destruct (fields_status_rejected ParticipantRead_validate
                ParticipantRead_validate ParticipantRead_validate
                (Some []) values v Hget Hnot) as (k3 & Hk3 & Hk3' & Hread).
    assert (k2 = k /\ k3 = k) as [-> ->].
    { destruct v; try (rewrite Hk, Hk2, Hk3 by discriminate; split; reflexivity).
      rewrite Hk', Hk2', Hk3' by reflexivity. split; reflexivity. }
    exists k. split; [ exact Hk | ]. split; [ exact Hk' | ].
    split; [ | split ].
    + unfold TaskCreate.init. apply rejects_ap_l, rejects_ap_r, Hcreate.
    + exact Hupdate.
    + unfold TaskRead.init, TaskBase.init.
      apply rejects_ap_l, rejects_ap_l, rejects_ap_r, Hread.
  - intros values s Hget.
    pose proof (str_field_accepts values "source" s Hget) as Hfield.
    repeat split.
    + intros l k Hin. unfold TaskCreate.init in Hin.
      rewrite !errors_ap in Hin. simpl in Hin.
      apply elem_of_app in Hin as [Hin | Hin].
      * apply fields_errors_source in Hin. rewrite Hfield in Hin.
        apply elem_of_nil in Hin. exact Hin.
      * apply field_errors_head in Hin as [? Hin]. discriminate Hin.
    + intros l k Hin. apply fields_errors_source in Hin.
      rewrite Hfield in Hin. apply elem_of_nil in Hin. exact Hin.
    + intros l k Hin. unfold TaskRead.init, TaskBase.init in Hin.
      rewrite !errors_ap in Hin. simpl in Hin.
      apply elem_of_app in Hin as [Hin | Hin];
        [ apply elem_of_app in Hin as [Hin | Hin] | ].
      * apply fields_errors_source in Hin. rewrite Hfield in Hin.
        apply elem_of_nil in Hin. exact Hin.
      * apply field_errors_head in Hin as [? Hin]. discriminate Hin.
      * apply field_errors_head in Hin as [? Hin]. discriminate Hin.
    + intros r H. unfold TaskCreate.init in H. invert_chain H. subst. simpl.
      match goal with
      | Hf : TaskBase.fields _ _ _ _ _ = inr _ |- _ =>
          apply fields_inr_inv in Hf;
          destruct Hf as (_ & _ & _ & _ & _ & _ & _ & _ & Hsrc & _)
      end.
      rewrite Hfield in Hsrc. injection Hsrc as <-. reflexivity.
    + intros r H. apply fields_inr_inv in H.
      destruct H as (_ & _ & _ & _ & _ & _ & _ & _ & Hsrc & _).
      rewrite Hfield in Hsrc. injection Hsrc as <-. reflexivity.
    + intros r H. unfold TaskRead.init, TaskBase.init in H.
      invert_chain H. subst. simpl.
      match goal with
      | Hf : TaskBase.fields _ _ _ _ _ = inr _ |- _ =>
          apply fields_inr_inv in Hf;
          destruct Hf as (_ & _ & _ & _ & _ & _ & _ & _ & Hsrc & _)
      end.
      rewrite Hfield in Hsrc. injection Hsrc as <-. reflexivity.
  - intros values s Hget.
    pose proof (str_field_accepts values "priority" s Hget) as Hfield.
    repeat split.
    + intros l k Hin. unfold TaskCreate.init in Hin.
      rewrite !errors_ap in Hin. simpl in Hin.
      apply elem_of_app in Hin as [Hin | Hin].
      * apply fields_errors_priority in Hin. rewrite Hfield in Hin.
        apply elem_of_nil in Hin. exact Hin.
      * apply field_errors_head in Hin as [? Hin]. discriminate Hin.
    + intros l k Hin. apply fields_errors_priority in Hin.
      rewrite Hfield in Hin. apply elem_of_nil in Hin. exact Hin.
    + intros l k Hin. unfold TaskRead.init, TaskBase.init in Hin.
      rewrite !errors_ap in Hin. simpl in Hin.
      apply elem_of_app in Hin as [Hin | Hin];
        [ apply elem_of_app in Hin as [Hin | Hin] | ].
      * apply fields_errors_priority in Hin. rewrite Hfield in Hin.
        apply elem_of_nil in Hin. exact Hin.
      * apply field_errors_head in Hin as [? Hin]. discriminate Hin.
      * apply field_errors_head in Hin as [? Hin]. discriminate Hin.
    + intros r H. unfold TaskCreate.init in H. invert_chain H. subst. simpl.
      match goal with
      | Hf : TaskBase.fields _ _ _ _ _ = inr _ |- _ =>
          apply fields_inr_inv in Hf;
          destruct Hf as (_ & _ & _ & _ & _ & _ & _ & _ & _ & Hpri & _)
      end.
      rewrite Hfield in Hpri. injection Hpri as <-. reflexivity.
    + intros r H. apply fields_inr_inv in H.
      destruct H as (_ & _ & _ & _ & _ & _ & _ & _ & _ & Hpri & _).
      rewrite Hfield in Hpri. injection Hpri as <-. reflexivity.
    + intros r H. unfold TaskRead.init, TaskBase.init in H.
      invert_chain H. subst. simpl.
      match goal with
      | Hf : TaskBase.fields _ _ _ _ _ = inr _ |- _ =>
          apply fields_inr_inv in Hf;
          destruct Hf as (_ & _ & _ & _ & _ & _ & _ & _ & _ & Hpri & _)
      end.
      rewrite Hfield in Hpri. injection Hpri as <-. reflexivity.
Qed.

(** ** The update shape: [assignees] and [status] *)

Lemma update_init_empty_assignees :
  TaskUpdate.init {[ "assignees" := PList [] ]}
  = inr (TaskBase.mk ParticipantRead ParticipantUpdate ParticipantUpdate
           None None None None None None TaskStatus.open [] None None None
           (Some []) None None None).
Proof. reflexivity. Qed.

Lemma update_empty_assignees_no_error (values : gmap string pyval) :
  no_error_at (TaskUpdate.init (<["assignees" := PList []]> values))
    "assignees".
Proof.
  intros l k Hin. apply fields_errors_assignees in Hin.
  rewrite (field_present _ "assignees" (PList []) _ _
             (lookup_insert_eq _ _ _)) in Hin.
  apply elem_of_nil in Hin. exact Hin.
Qed.

(** C5: an update shape whose input has no [assignees] key is refused, the
    ValidationError saying at [assignees] that the field is missing; with
    [assignees] the empty list no error is raised at the field, an input
    that validates still validates and the shape then holds no assignee (a
    replacement of the assignees by none), the empty list alone is a valid
    input; and for every input the outcome without the key differs from
    the outcome with the empty list. *)
Theorem update_assignees_required (values : gmap string pyval) :
  (values !! "assignees" = None ->
   rejects (TaskUpdate.init values) [LField "assignees"] MissingError)
  /\ no_error_at (TaskUpdate.init (<["assignees" := PList []]> values))
       "assignees"
  /\ (forall r, TaskUpdate.init values = inr r ->
        TaskUpdate.init (<["assignees" := PList []]> values)
        = inr (TaskBase_set_assignees [] r))
  /\ (forall r,
        TaskUpdate.init (<["assignees" := PList []]> values) = inr r ->
        TaskBase.assignees r = [])
  /\ TaskUpdate.init {[ "assignees" := PList [] ]}
     = inr (TaskBase.mk ParticipantRead ParticipantUpdate ParticipantUpdate
              None None None None None None TaskStatus.open [] None None
              None (Some []) None None None)
  /\ TaskUpdate.init (delete "assignees" values)
     <> TaskUpdate.init (<["assignees" := PList []]> values).
Proof.
  assert (Hmissing : forall vs : gmap string pyval,
             vs !! "assignees" = None ->
             rejects (TaskUpdate.init vs) [LField "assignees"] MissingError).
  { intros vs Hget. apply fields_assignees_missing; [ reflexivity | exact Hget ]. }
  split; [ apply Hmissing | ].
  split; [ apply update_empty_assignees_no_error | ].
  split; [ | split; [ | split; [ exact update_init_empty_assignees | ] ] ].
  - intros r H. apply fields_inr_inv in H.
    destruct H as (H1 & H2 & H3 & H4 & H5 & H6 & H7 & _ & H9 & H10 & H11
                   & H12 & H13 & H14 & H15).
    unfold TaskUpdate.init, TaskBase.fields.
    rewrite (field_present (<["assignees" := PList []]> values) "assignees"
               (PList []) _ _ (lookup_insert_eq _ _ _)).
    rewrite !field_insert_ne by discriminate.
    rewrite H1, H2, H3, H4, H5, H6, H7, H9, H10, H11, H12, H13, H14, H15.
    reflexivity.
  - intros r H. apply fields_inr_inv in H.
    destruct H as (_ & _ & _ & _ & _ & _ & _ & H8 & _).
    rewrite (field_present _ "assignees" (PList []) _ _
               (lookup_insert_eq _ _ _)) in H8.
    injection H8 as <-. reflexivity.
  - intros Heq.
    destruct (Hmissing (delete "assignees" values) (lookup_delete_eq _ _))
      as (es & Hes & Hin).
    rewrite Heq in Hes.
    apply (update_empty_assignees_no_error values [] MissingError).
    rewrite Hes. exact Hin.
Qed.

(** C10: an update shape whose input has no [status] key is constructed
    exactly as if [status] were "Open": the outcome is the same, a shape
    that is constructed holds the status open, the default of the base
    shape; an input with nothing but an empty list of assignees is
    accepted that way. *)
Theorem update_status_omitted (values : gmap string pyval) :
  values !! "status" = None ->
  TaskUpdate.init values
  = TaskUpdate.init
      (<["status" := PStr (TaskStatus.value TaskStatus.open)]> values)
  /\ (forall r, TaskUpdate.init values = inr r ->
        TaskBase.status r = TaskStatus.open)
  /\ TaskUpdate.init {[ "assignees" := PList [] ]}
     = inr (TaskBase.mk ParticipantRead ParticipantUpdate ParticipantUpdate
              None None None None None None TaskStatus.open [] None None
              None (Some []) None None None).
Proof.
  intros Hget. split; [ | split; [ | exact update_init_empty_assignees ] ].
  - unfold TaskUpdate.init, TaskBase.fields.
    rewrite (field_present
               (<["status" := PStr (TaskStatus.value TaskStatus.open)]> values)
               "status" (PStr (TaskStatus.value TaskStatus.open)) _ _
               (lookup_insert_eq _ _ _)).
    rewrite !field_insert_ne by discriminate.
    rewrite (field_absent values "status" _ _ Hget).
    reflexivity.
  - intros r H. apply fields_inr_inv in H.
    destruct H as (_ & _ & _ & _ & _ & _ & H7 & _).
    rewrite (field_absent values "status" _ _ Hget) in H7.
    injection H7 as <-. reflexivity.
Qed.

End Shapes.

(** An update that carries a description, no assignee and no status. *)
Lemma update_status_omitted_witness :
  let values : gmap string pyval :=
    {[ "assignees" := PList []; "description" := PStr "rotate the keys" ]} in
  @TaskUpdate.init example_externals values
  = @TaskUpdate.init example_externals (<["status" := PStr "Open"]> values)
  /\ (forall r, @TaskUpdate.init example_externals values = inr r ->
        TaskBase.status r = TaskStatus.open)
  /\ @TaskUpdate.init example_externals {[ "assignees" := PList [] ]}
     = inr (@TaskBase.mk example_externals (gmap string pyval)
              (gmap string pyval) (gmap string pyval)
              None None None None None None TaskStatus.open [] None None
              None (Some []) None None None).
Proof.
  exact (@update_status_omitted example_externals
           {[ "assignees" := PList []; "description" := PStr "rotate the keys" ]}
           eq_refl).
Defined.

(** A create shape with a source that is no member of TaskSource is
    constructed, and holds that source. *)
Lemma unknown_source_accepted :
  TaskSource.of_value "Bogus" = None
  /\ @TaskCreate.init example_externals {[ "source" := PStr "Bogus" ]}
     = inr (@TaskCreate.mk example_externals
              (@TaskBase.mk example_externals (gmap string pyval)
                 (gmap string pyval) (gmap string pyval)
                 None None None None None None TaskStatus.open []
                 (Some "Bogus") None None (Some []) None None None)
              (Some "google-docs-incident-task")).
Proof. split; reflexivity. Qed.

(** The same input with the status "Bogus" instead is refused. *)
Example unknown_status_refused :
  @TaskCreate.init example_externals {[ "status" := PStr "Bogus" ]}
  = inl [([LField "status"], EnumMemberError ["Open"; "Resolved"])].
Proof. reflexivity. Qed.

(** * Further properties of the code *)

(** ** default_resolution_time: results and errors *)

Lemma datetime_add_inr (t delta r : Z) :
  datetime.add t delta = inr r -> r = t + delta /\ datetime.in_range r.
Proof.
  unfold datetime.add.
  destruct ((0 <=? t + delta) && (t + delta <=? datetime.max)) eqn:Htest;
    intros H; [ | discriminate H ].
  injection H as <-. apply andb_prop in Htest as [Hlo Hhi].
  apply Z.leb_le in Hlo. apply Z.leb_le in Hhi.
  split; [ reflexivity | split; assumption ].
Qed.

Lemma datetime_add_inl (t delta : Z) (e : exn) :
  datetime.add t delta = inl e ->
  e = OverflowError /\ ~ datetime.in_range (t + delta).
Proof.
  unfold datetime.add.
  destruct ((0 <=? t + delta) && (t + delta <=? datetime.max)) eqn:Htest;
    intros H; [ discriminate H | ].
  injection H as <-. split; [ reflexivity | ].
  intros [Hlo Hhi]. apply Z.leb_le in Hlo. apply Z.leb_le in Hhi.
  rewrite Hlo, Hhi in Htest. discriminate Htest.
Qed.

Lemma timedelta_days_values :
  datetime.timedelta_days 1 = 86400000000
  /\ datetime.timedelta_days 7 = 604800000000.
Proof. split; reflexivity. Qed.

(** The three returns of the function, by the value of [source]. *)
Lemma default_resolution_time_cases
    (context : gmap string pyval) (utcnow : Z) (task_source : pyval) :
  context !! "source" = Some task_source ->
  (task_source = PStr "Post Incident Review"
   /\ default_resolution_time context utcnow
      = datetime.add utcnow (datetime.timedelta_days 7))
  \/ (task_source <> PStr "Post Incident Review"
      /\ default_resolution_time context utcnow
         = datetime.add utcnow (datetime.timedelta_days 1)).
Proof.
  intros Hget. unfold default_resolution_time. rewrite Hget.
  destruct (py_eq_str task_source (TaskSource.value TaskSource.incident))
    eqn:Hinc.
  - right. apply py_eq_str_true in Hinc. subst task_source.
    split; [ discriminate | reflexivity ].
  - destruct (py_eq_str task_source
                (TaskSource.value TaskSource.post_incident_review)) eqn:Hpir.
    + left. apply py_eq_str_true in Hpir. split; [ exact Hpir | reflexivity ].
    + right. split; [ | reflexivity ].
      intros ->. simpl in Hpir. discriminate Hpir.
Qed.

(** X2: a due date that default_resolution_time returns is a datetime of
    the calendar, lies exactly 1 day or exactly 7 days after the reading of
    the clock -- so strictly after it and never more than 7 days after it --
    and is 7 days after it only for the source "Post Incident Review". *)
Theorem default_resolution_time_bounds
    (context : gmap string pyval) (utcnow r : Z) :
  default_resolution_time context utcnow = inr r ->
  datetime.in_range r
  /\ (r = utcnow + 86400000000 \/ r = utcnow + 604800000000)
  /\ utcnow < r <= utcnow + 604800000000
  /\ (r = utcnow + 604800000000 ->
      context !! "source" = Some (PStr "Post Incident Review")).
Proof.
  intros H.
  destruct (context !! "source") as [task_source | ] eqn:Hget.
  - destruct (default_resolution_time_cases context utcnow task_source Hget)
      as [[-> Hcase] | [Hne Hcase]];
      rewrite Hcase in H; apply datetime_add_inr in H as [-> Hrange];
      destruct timedelta_days_values as [H1 H7];
      rewrite ?H1, ?H7 in *.
    + split; [ exact Hrange | ]. split; [ right; reflexivity | ].
      split; [ lia | intros _; reflexivity ].
    + split; [ exact Hrange | ]. split; [ left; reflexivity | ].
      split; [ lia | intros Heq; lia ].
  - unfold default_resolution_time in H. rewrite Hget in H. discriminate H.
Qed.

Lemma default_resolution_time_bounds_witness :
  datetime.in_range (737797 * 86400000000)
  /\ (737797 * 86400000000 = 737790 * 86400000000 + 86400000000
      \/ 737797 * 86400000000 = 737790 * 86400000000 + 604800000000)
  /\ 737790 * 86400000000 < 737797 * 86400000000
     <= 737790 * 86400000000 + 604800000000
  /\ (737797 * 86400000000 = 737790 * 86400000000 + 604800000000 ->
      ({[ "source" := PStr "Post Incident Review" ]} : gmap string pyval)
        !! "source"
      = Some (PStr "Post Incident Review")).
Proof.
  apply (default_resolution_time_bounds
           {[ "source" := PStr "Post Incident Review" ]}
           (737790 * 86400000000) (737797 * 86400000000)).
  reflexivity.
Defined.

(** X3: default_resolution_time raises KeyError("source") whenever the
    parameters have no entry for [source], whatever the clock reads; the
    only other error is the OverflowError of the addition, which needs a
    [source] entry and a sum outside of the calendar; with a [source]
    entry and a clock at least 7 days before datetime.max it returns. *)
Theorem default_resolution_time_errors
    (context : gmap string pyval) (utcnow : Z) :
  (context !! "source" = None ->
   default_resolution_time context utcnow = inl (KeyError "source"))
  /\ (forall e, default_resolution_time context utcnow = inl e ->
        (e = KeyError "source" /\ context !! "source" = None)
        \/ (e = OverflowError
            /\ is_Some (context !! "source")
            /\ (~ datetime.in_range (utcnow + 86400000000)
                \/ ~ datetime.in_range (utcnow + 604800000000))))
  /\ (is_Some (context !! "source") ->
      0 <= utcnow -> utcnow + 604800000000 <= datetime.max ->
      exists r, default_resolution_time context utcnow = inr r).
Proof.
  destruct timedelta_days_values as [H1 H7].
  split; [ | split ].
  - intros Hget. unfold default_resolution_time. rewrite Hget. reflexivity.
  - intros e H.
    destruct (context !! "source") as [task_source | ] eqn:Hget.
    + right.
      destruct (default_resolution_time_cases context utcnow task_source Hget)
        as [[_ Hcase] | [_ Hcase]];
        rewrite Hcase in H; apply datetime_add_inl in H as [-> Hout];
        rewrite ?H1, ?H7 in Hout.
      * split; [ reflexivity | ]. split; [ eexists; reflexivity | ].
        right. exact Hout.
      * split; [ reflexivity | ]. split; [ eexists; reflexivity | ].
        left. exact Hout.
    + left. unfold default_resolution_time in H. rewrite Hget in H.
      injection H as <-. split; reflexivity.
  - intros [task_source Hget] Hlo Hhi.
    destruct (default_resolution_time_cases context utcnow task_source Hget)
      as [[_ Hcase] | [_ Hcase]]; rewrite Hcase.
    + eexists. apply datetime_add_in_range. rewrite H7.
      split; lia.
    + eexists. apply datetime_add_in_range. rewrite H1.
      split; lia.
Qed.

(** ** The listener over the life of a row *)

Section History.
Context {E : Externals}.

Lemma set_resolved_at_same (x : Task.t) :
  Task.set_resolved_at (Task.resolved_at x) x = x.
Proof. destruct x. reflexivity. Qed.

(** X4: the listener changes no attribute of the target but
    [resolved_at] (putting the earlier value back gives back the
    target); run twice on a target, only the later reading of the clock
    counts, and run twice at the same reading it is run once. *)
Theorem listener_last_stamp_wins (t1 t2 : Z) (x : Task.t) :
  Task.set_resolved_at (Task.resolved_at x) (Task._resolved_at t1 x) = x
  /\ Task._resolved_at t2 (Task._resolved_at t1 x) = Task._resolved_at t2 x
  /\ Task._resolved_at t1 (Task._resolved_at t1 x) = Task._resolved_at t1 x.
Proof.
  assert (Hlast : forall a b,
             Task._resolved_at b (Task._resolved_at a x)
             = Task._resolved_at b x).
  { intros a b. unfold Task._resolved_at.
    destruct (Task.status_is (Task.status x) TaskStatus.resolved) eqn:Hst.
    - change (Task.status (Task.set_resolved_at (Some a) x))
        with (Task.status x).
      rewrite Hst. reflexivity.
    - rewrite Hst. reflexivity. }
  split; [ | split; apply Hlast ].
  unfold Task._resolved_at.
  destruct (Task.status_is (Task.status x) TaskStatus.resolved).
  - destruct x. reflexivity.
  - apply set_resolved_at_same.
Qed.

Lemma run_snoc (history : list (Z * list Task.assignment))
    (t : Z) (changes : list Task.assignment) (row : Task.t) :
  Task.run (history ++ [(t, changes)]) row
  = Task.update t changes (Task.run history row).
Proof. unfold Task.run. rewrite fold_left_app. reflexivity. Qed.

Lemma update_status (t : Z) (changes : list Task.assignment) (row : Task.t) :
  Task.status (Task.update t changes row)
  = Task.status (fold_left Task.assign changes row).
Proof.
  unfold Task.update. rewrite fire_before_update. apply _resolved_at_status.
Qed.

(** X5: whatever updates a row has gone through, if the row is "Resolved"
    after an update then its [resolved_at] is the reading of the clock at
    that update, the latest one: the column holds the time of the last
    update of a resolved task, and it is never empty on a resolved task
    that has been updated. *)
Theorem resolved_at_is_last_update
    (history : list (Z * list Task.assignment)) (t : Z)
    (changes : list Task.assignment) (row : Task.t) :
  Task.status (Task.run (history ++ [(t, changes)]) row)
  = Some (TaskStatus.value TaskStatus.resolved) ->
  Task.resolved_at (Task.run (history ++ [(t, changes)]) row) = Some t.
Proof.
  rewrite run_snoc, update_status. intros Hst.
  unfold Task.update. rewrite fire_before_update.
  rewrite (_resolved_at_resolved _ _ Hst). reflexivity.
Qed.

(** Writes that do not name the incident leave it as it was. *)
Lemma writes_keep_incident (changes : list Task.assignment) (row : Task.t) :
  forallb (fun a => negb (Task.writes_incident a)) changes = true ->
  Task.incident (fold_left Task.assign changes row) = Task.incident row.
Proof.
  revert row. induction changes as [ | a changes IH]; intros row Hall.
  - reflexivity.
  - simpl in Hall. apply andb_prop in Hall as [Ha Hrest].
    simpl. rewrite (IH _ Hrest). destruct a; try reflexivity.
    discriminate Ha.
Qed.

Lemma _resolved_at_incident (utcnow : Z) (target : Task.t) :
  Task.incident (Task._resolved_at utcnow target) = Task.incident target.
Proof.
  unfold Task._resolved_at. destruct (Task.status_is _ _); reflexivity.
Qed.

(** X6: an update whose change-set does not write the incident leaves the
    project of the Task as it was, stamped or not; and reading the project
    raises AttributeError exactly when the Task has no incident. *)
Theorem project_unchanged_by_update
    (utcnow : Z) (changes : list Task.assignment) (row : Task.t) :
  (forallb (fun a => negb (Task.writes_incident a)) changes = true ->
   Task.project (Task.update utcnow changes row) = Task.project row)
  /\ (Task.project row = inl (AttributeError "project")
      <-> Task.incident row = None)
  /\ (forall e, Task.project row = inl e -> e = AttributeError "project").
Proof.
  split; [ | split ].
  - intros Hall. unfold Task.project, Task.update.
    rewrite fire_before_update, _resolved_at_incident.
    rewrite (writes_keep_incident _ _ Hall). reflexivity.
  - unfold Task.project. destruct (Task.incident row); split; intros H;
      try reflexivity; discriminate H.
  - intros e. unfold Task.project. destruct (Task.incident row); intros H;
      [ discriminate H | injection H as <-; reflexivity ].
Qed.

(** X7: the listener and the shapes agree on what "Resolved" is: a status
    string equals a member of TaskStatus, as the listener compares it,
    exactly when the validation of the shapes turns it into that member;
    so the listener stamps a target exactly when its status validates to
    TaskStatus.resolved, and leaves it alone for "Open" and for every string
    the shapes refuse. *)
Theorem listener_agrees_with_validator
    (utcnow : Z) (target : Task.t) (s : string) :
  Task.status target = Some s ->
  (forall m, Task.status_is (Some s) m = true
             <-> TaskStatus_validator (PStr s) = inr m)
  /\ (TaskStatus_validator (PStr s) = inr TaskStatus.resolved ->
      Task._resolved_at utcnow target
      = Task.set_resolved_at (Some utcnow) target)
  /\ (TaskStatus_validator (PStr s) <> inr TaskStatus.resolved ->
      Task._resolved_at utcnow target = target).
Proof.
  intros Hst.
  assert (Hiff : forall m, Task.status_is (Some s) m = true
                           <-> TaskStatus_validator (PStr s) = inr m).
  { intros m. rewrite status_is_true. unfold TaskStatus_validator.
    destruct (TaskStatus.of_value s) as [m' | ] eqn:Hof.
    - apply TaskStatus_of_value_spec in Hof. subst s. split.
      + intros H. injection H as H. destruct m, m'; try reflexivity;
          discriminate H.
      + intros H. injection H as <-. reflexivity.
    - split; [ | intros H; discriminate H ].
      intros H. injection H as ->.
      assert (Hsome : TaskStatus.of_value (TaskStatus.value m) = Some m)
        by (apply TaskStatus_of_value_spec; reflexivity).
      rewrite Hsome in Hof. discriminate Hof. }
  split; [ exact Hiff | split ].
  - intros Hv. apply _resolved_at_resolved. rewrite Hst.
    apply status_is_true, Hiff, Hv.
  - intros Hv. apply _resolved_at_other. rewrite Hst. intros Heq.
    apply Hv, Hiff, status_is_true, Heq.
Qed.

End History.

Lemma resolved_at_is_last_update_witness :
  Task.resolved_at
    (Task.run
       ([(600, [Task.SetStatus (Some "Open")]);
         (650, [Task.SetStatus (Some "Resolved")])]
        ++ [(700, [Task.SetDescription (Some "done")])])
       example_task)
  = Some 700.
Proof.
  exact (@resolved_at_is_last_update example_externals
           [(600, [Task.SetStatus (Some "Open")]);
            (650, [Task.SetStatus (Some "Resolved")])]
           700 [Task.SetDescription (Some "done")] example_task eq_refl).
Defined.

Lemma listener_agrees_with_validator_witness :
  (forall m, Task.status_is (Some "Resolved") m = true
             <-> TaskStatus_validator (PStr "Resolved") = inr m)
  /\ (TaskStatus_validator (PStr "Resolved") = inr TaskStatus.resolved ->
      Task._resolved_at 700 example_task
      = Task.set_resolved_at (Some 700) example_task)
  /\ (TaskStatus_validator (PStr "Resolved") <> inr TaskStatus.resolved ->
      Task._resolved_at 700 example_task = example_task).
Proof.
  exact (@listener_agrees_with_validator example_externals 700 example_task
           "Resolved" eq_refl).
Defined.

(** ** Validation of lists and of nested values *)

Lemma at_loc_inr {A : Type} (l : loc_item) (w : V A) (a : A) :
  at_loc l w = inr a <-> w = inr a.
Proof.
  destruct w as [es | a']; simpl; split; intros H;
    try discriminate H; exact H.
Qed.

Lemma rejects_at_loc {A : Type} (l : loc_item) (w : V A) loc k :
  rejects w loc k -> rejects (at_loc l w) (l :: loc) k.
Proof.
  intros (es & -> & Hin). simpl. eexists. split; [ reflexivity | ].
  apply list_elem_of_fmap. exists (loc, k). split; [ reflexivity | exact Hin ].
Qed.

Lemma rejects_field {A : Type} (values : gmap string pyval) (name : string)
    (v : pyval) (default : option A) (validate : pyval -> V A) loc k :
  values !! name = Some v ->
  rejects (validate v) loc k ->
  rejects (field values name default validate) (LField name :: loc) k.
Proof.
  intros Hget Hrej. rewrite (field_present _ _ _ _ _ Hget).
  apply rejects_at_loc, Hrej.
Qed.

Lemma rejects_fail {A : Type} (k : error_kind) : rejects (@fail A k) [] k.
Proof.
  exists [([], k)]. split; [ reflexivity | ].
  apply list_elem_of_singleton. reflexivity.
Qed.

Lemma validate_items_cons {A : Type} (validate : pyval -> V A) (n : nat)
    (x : pyval) (xs : list pyval) :
  validate_items validate n (x :: xs)
  = pure cons <*> at_loc (LIndex n) (validate x)
              <*> validate_items validate (S n) xs.
Proof. reflexivity. Qed.

(** A list validates exactly when every item does, item by item and in
    order. *)
Lemma validate_items_inr {A : Type} (validate : pyval -> V A) (n : nat)
    (xs : list pyval) (ys : list A) :
  validate_items validate n xs = inr ys
  <-> Forall2 (fun x y => validate x = inr y) xs ys.
Proof.
  revert n ys. induction xs as [ | x xs IH]; intros n ys.
  - simpl. split.
    + intros H. injection H as <-. constructor.
    + intros H. inversion H. reflexivity.
  - rewrite validate_items_cons. split.
    + intros H. apply ap_inr_inv in H as (g & zs & H & Hrest & ->).
      apply ap_inr_inv in H as (g' & y & H & Hx & ->).
      injection H as <-. apply at_loc_inr in Hx. apply IH in Hrest.
      constructor; assumption.
    + intros H. inversion H as [ | x' y xs' zs Hx Hrest]; subst.
      apply (IH (S n)) in Hrest. rewrite Hrest.
      rewrite (proj2 (at_loc_inr (LIndex n) _ _) Hx). reflexivity.
Qed.

(** The error of an item is reported at the index of the item. *)
Lemma validate_items_rejects {A : Type} (validate : pyval -> V A) (n i : nat)
    (xs : list pyval) (x : pyval) loc k :
  xs !! i = Some x ->
  rejects (validate x) loc k ->
  rejects (validate_items validate n xs) (LIndex (n + i)%nat :: loc) k.
Proof.
  revert n i. induction xs as [ | x' xs IH]; intros n i Hget Hrej.
  - rewrite lookup_nil in Hget. discriminate Hget.
  - rewrite validate_items_cons. destruct i as [ | i]; simpl in Hget.
    + injection Hget as ->. rewrite Nat.add_0_r.
      apply rejects_ap_l, rejects_ap_r, rejects_at_loc, Hrej.
    + apply rejects_ap_r.
      replace (n + S i)%nat with (S n + i)%nat by lia.
      apply IH; assumption.
Qed.

Lemma list_validator_rejects {A : Type} (validate : pyval -> V A) (i : nat)
    (xs : list pyval) (x : pyval) loc k :
  xs !! i = Some x ->
  rejects (validate x) loc k ->
  rejects (list_validator validate (PList xs)) (LIndex i :: loc) k.
Proof. intros Hget Hrej. apply (validate_items_rejects validate 0 i xs x); assumption. Qed.

Lemma optional_inr_none {A : Type} (validate : pyval -> V A) (v : pyval) :
  optional validate v = inr None <-> v = PNone.
Proof.
  split; [ | intros ->; reflexivity ].
  destruct v; simpl; try reflexivity;
    destruct (validate _); intros H; discriminate H.
Qed.

Lemma optional_inr_some {A : Type} (validate : pyval -> V A) (v : pyval)
    (a : A) :
  optional validate v = inr (Some a) -> v <> PNone /\ validate v = inr a.
Proof.
  destruct v; simpl; try (intros H; discriminate H);
    destruct (validate _) as [es | a'] eqn:Hv; intros H;
    try discriminate H; injection H as <-;
    (split; [ discriminate | reflexivity ]).
Qed.

Lemma not_none_inr {A : Type} (validate : pyval -> V A) (v : pyval) (a : A) :
  not_none validate v = inr a -> v <> PNone /\ validate v = inr a.
Proof.
  destruct v; simpl; try (intros H; discriminate H);
    intros H; (split; [ discriminate | exact H ]).
Qed.

Lemma list_validator_inr {A : Type} (validate : pyval -> V A) (v : pyval)
    (ys : list A) :
  list_validator validate v = inr ys ->
  exists xs, v = PList xs /\ Forall2 (fun x y => validate x = inr y) xs ys.
Proof.
  destruct v; simpl; try (intros H; discriminate H).
  intros H. exists xs. split; [ reflexivity | ].
  apply (validate_items_inr validate 0), H.
Qed.

Lemma model_validator_inr {A : Type} (init : gmap string pyval -> V A)
    (v : pyval) (a : A) :
  model_validator init v = inr a <->
  exists d, kwargs_of v = inr d /\ init d = inr a.
Proof.
  unfold model_validator. split.
  - destruct (kwargs_of v) as [[ | ] | d]; intros H; try discriminate H.
    exists d. split; [ reflexivity | exact H ].
  - intros (d & -> & H). exact H.
Qed.


(** What a field holds when the shape is constructed and the key was
    given. *)
Lemma field_inr_present {A : Type} (values : gmap string pyval)
    (name : string) (v : pyval) (default : option A)
    (validate : pyval -> V A) (a : A) :
  values !! name = Some v ->
  field values name default validate = inr a -> validate v = inr a.
Proof.
  intros Hget. rewrite (field_present _ _ _ _ _ Hget). apply at_loc_inr.
Qed.

(** ** More on the shapes *)

Section MoreShapes.
Context {E : Externals}.

Ltac in_chain H :=
  first [ apply rejects_ap_r; exact H
        | apply rejects_ap_l; in_chain H ].

Ltac take_apart H :=
  repeat
    (let g := fresh "g" in
     let a := fresh "a" in
     let Ha := fresh "Hfield" in
     let Hb := fresh "Hshape" in
     apply ap_inr_inv in H as (g & a & H & Ha & Hb));
  injection H as <-.

(** The key [name] being absent, an error at [name] cannot come from the
    field [name]. *)
Ltac not_from_absent Hin Hget :=
  let l := fresh "l" in
  let Hhead := fresh "Hhead" in
  let Hname := fresh "Hname" in
  pose proof (field_errors_head _ _ _ _ _ Hin) as [l Hhead];
  simpl in Hhead; injection Hhead as Hname _; subst;
  unfold field in Hin; rewrite Hget in Hin; simpl in Hin;
  apply elem_of_nil in Hin; exact Hin.

Lemma ticket_read_holds_description (d : gmap string pyval)
    (r : TicketRead.t) :
  TicketRead.init d = inr r ->
  TicketRead.description r = Some INCIDENT_TICKET_DESCRIPTION.
Proof.
  intros H. unfold TicketRead.init in H. rewrite description_field in H.
  take_apart H. subst.
  match goal with
  | Hd : inr _ = inr _ |- _ => injection Hd as <-
  end.
  reflexivity.
Qed.

Section MoreFields.
Context {C O A : Type}.
Variables (creator_validate : pyval -> V C) (owner_validate : pyval -> V O)
          (assignee_validate : pyval -> V A).
Variable assignees_default : option (list (option A)).

#[local] Abbreviation fields :=
  (TaskBase.fields creator_validate owner_validate assignee_validate
     assignees_default).

Lemma fields_absent_no_error (values : gmap string pyval) (name : string) :
  values !! name = None ->
  (name = "assignees" -> assignees_default <> None) ->
  no_error_at (fields values) name.
Proof.
  intros Hget Hdefault l k Hin.
  rewrite fields_errors in Hin.
  repeat (apply elem_of_app in Hin as [Hin | Hin]);
    try (apply elem_of_nil in Hin; contradiction);
    try (not_from_absent Hin Hget).
  pose proof (field_errors_head _ _ _ _ _ Hin) as [l' Hhead].
  simpl in Hhead. injection Hhead as Hname _. subst.
  unfold field in Hin. rewrite Hget in Hin.
  destruct assignees_default as [a | ].
  - apply elem_of_nil in Hin. exact Hin.
  - apply (Hdefault eq_refl). reflexivity.
Qed.

Lemma fields_assignees_none (values : gmap string pyval) :
  values !! "assignees" = Some PNone ->
  rejects (fields values) [LField "assignees"] NoneIsNotAllowedError.
Proof.
  intros Hget.
  assert (Hrej : rejects (field values "assignees" assignees_default
                            (not_none
                               (list_validator (optional assignee_validate))))
                   [LField "assignees"] NoneIsNotAllowedError).
  { apply (rejects_field _ _ PNone); [ exact Hget | apply rejects_fail ]. }
  unfold TaskBase.fields. in_chain Hrej.
Qed.

Lemma fields_tickets_item_none (values : gmap string pyval)
    (xs : list pyval) (i : nat) :
  values !! "tickets" = Some (PList xs) ->
  xs !! i = Some PNone ->
  rejects (fields values) [LField "tickets"; LIndex i]
    NoneIsNotAllowedError.
Proof.
  intros Hget Hi.
  assert (Hrej : rejects (field values "tickets" (Some (Some []))
                            (optional
                               (list_validator
                                  (not_none
                                     (model_validator TicketRead.init)))))
                   [LField "tickets"; LIndex i] NoneIsNotAllowedError).
  { apply (rejects_field _ _ (PList xs)); [ exact Hget | ].
    destruct (list_validator_rejects
                (not_none (model_validator TicketRead.init)) i xs PNone
                [] NoneIsNotAllowedError Hi (rejects_fail _))
      as (es & Hes & Hin).
    exists es. split; [ | exact Hin ].
    simpl. simpl in Hes. rewrite Hes. reflexivity. }
  unfold TaskBase.fields. in_chain Hrej.
Qed.

Lemma fields_tickets_none (values : gmap string pyval) (r : TaskBase.t C O A) :
  values !! "tickets" = Some PNone ->
  fields values = inr r -> TaskBase.tickets r = None.
Proof.
  intros Hget H. apply fields_inr_inv in H.
  destruct H as (_ & _ & _ & _ & _ & _ & _ & _ & _ & _ & _ & Ht & _).
  apply (field_inr_present _ _ _ _ _ _ Hget) in Ht.
  simpl in Ht. injection Ht as <-. reflexivity.
Qed.

Lemma fields_assignees_items (values : gmap string pyval)
    (xs : list pyval) (r : TaskBase.t C O A) :
  values !! "assignees" = Some (PList xs) ->
  fields values = inr r ->
  Forall2 (fun x y => optional assignee_validate x = inr y)
    xs (TaskBase.assignees r).
Proof.
  intros Hget H. apply fields_inr_inv in H.
  destruct H as (_ & _ & _ & _ & _ & _ & _ & Ha & _).
  apply (field_inr_present _ _ _ _ _ _ Hget) in Ha.
  apply not_none_inr in Ha as [_ Ha].
  apply list_validator_inr in Ha as (xs' & Heq & Hall).
  injection Heq as <-. exact Hall.
Qed.

Lemma fields_tickets_items (values : gmap string pyval)
    (r : TaskBase.t C O A) (ts : list TicketRead.t) :
  fields values = inr r ->
  TaskBase.tickets r = Some ts ->
  (values !! "tickets" = None /\ ts = [])
  \/ (exists xs, values !! "tickets" = Some (PList xs)
                 /\ Forall2 (fun x y =>
                               exists d, kwargs_of x = inr d
                                         /\ TicketRead.init d = inr y)
                      xs ts).
Proof.
  intros H Hts. apply fields_inr_inv in H.
  destruct H as (_ & _ & _ & _ & _ & _ & _ & _ & _ & _ & _ & Ht & _).
  rewrite Hts in Ht.
  destruct (values !! "tickets") as [v | ] eqn:Hget.
  - right. apply (field_inr_present _ _ _ _ _ _ Hget) in Ht.
    apply optional_inr_some in Ht as [_ Ht].
    apply list_validator_inr in Ht as (xs & -> & Hall).
    exists xs. split; [ reflexivity | ]. clear Hts Hget.
    induction Hall as [ | x y xs' ts' Hx Hrest IH]; constructor.
    + apply not_none_inr in Hx as [_ Hx].
      apply model_validator_inr in Hx. exact Hx.
    + exact IH.
  - left. split; [ reflexivity | ].
    unfold field in Ht. rewrite Hget in Ht.
    injection Ht as Ht. symmetry. exact Ht.
Qed.

End MoreFields.
(** A create shape and a read shape hold the base fields of the same
    input. *)
Lemma create_inr_base (values : gmap string pyval) (r : TaskCreate.t) :
  TaskCreate.init values = inr r ->
  TaskBase.fields ParticipantUpdate_validate ParticipantUpdate_validate
    ParticipantUpdate_validate (Some []) values
  = inr (TaskCreate.base r)
  /\ field values "resource_type"
       (Some (Some INCIDENT_RESOURCE_INCIDENT_TASK)) (optional str_validator)
     = inr (TaskCreate.resource_type r).
Proof.
  intros H. unfold TaskCreate.init in H. take_apart H. subst.
  split; assumption.
Qed.

Lemma read_inr_base (values : gmap string pyval) (r : TaskRead.t) :
  TaskRead.init values = inr r ->
  TaskBase.init values = inr (TaskRead.base r)
  /\ field values "id" None (not_none int_validator) = inr (TaskRead.id r)
  /\ field values "project" (Some None) (optional ProjectRead_validate)
     = inr (TaskRead.project r).
Proof.
  intros H. unfold TaskRead.init in H. take_apart H. subst.
  repeat split; assumption.
Qed.

Lemma create_errors (values : gmap string pyval) :
  errors (TaskCreate.init values)
  = (errors (TaskBase.fields ParticipantUpdate_validate
               ParticipantUpdate_validate ParticipantUpdate_validate
               (Some []) values)
     ++ errors (field values "resource_type"
                  (Some (Some INCIDENT_RESOURCE_INCIDENT_TASK))
                  (optional str_validator)))%list.
Proof. unfold TaskCreate.init. rewrite !errors_ap. reflexivity. Qed.

Lemma read_errors (values : gmap string pyval) :
  errors (TaskRead.init values)
  = ((errors (TaskBase.init values)
      ++ errors (field values "id" None (not_none int_validator)))
     ++ errors (field values "project" (Some None)
                  (optional ProjectRead_validate)))%list.
Proof. unfold TaskRead.init. rewrite !errors_ap. reflexivity. Qed.

Lemma read_id_missing (values : gmap string pyval) :
  values !! "id" = None ->
  rejects (TaskRead.init values) [LField "id"] MissingError.
Proof.
  intros Hget.
  assert (Hrej : rejects (field values "id" None (not_none int_validator))
                   [LField "id"] MissingError).
  { unfold field. rewrite Hget.
    exists [([LField "id"], MissingError)].
    split; [ reflexivity | apply list_elem_of_singleton; reflexivity ]. }
  unfold TaskRead.init. apply rejects_ap_l, rejects_ap_r, Hrej.
Qed.

(** X8: no key is required to construct a create shape: a key that is
    absent raises no error at its field, whatever the rest of the input is,
    and the empty input constructs the shape of an open task without
    assignees, with an empty list of tickets and the resource type
    INCIDENT_RESOURCE_INCIDENT_TASK. *)
Theorem create_requires_nothing :
  (forall (values : gmap string pyval) (name : string),
     values !! name = None -> no_error_at (TaskCreate.init values) name)
  /\ TaskCreate.init ∅
     = inr (TaskCreate.mk
              (TaskBase.mk ParticipantUpdate ParticipantUpdate
                 ParticipantUpdate
                 None None None None None None TaskStatus.open [] None None
                 None (Some []) None None None)
              (Some INCIDENT_RESOURCE_INCIDENT_TASK)).
Proof.
  split; [ | reflexivity ].
  intros values name Hget l k Hin. rewrite create_errors in Hin.
  apply elem_of_app in Hin as [Hin | Hin].
  - revert Hin. apply fields_absent_no_error; [ exact Hget | discriminate ].
  - not_from_absent Hin Hget.
Qed.

(** X9: a read shape requires [id] and nothing else, an update shape
    requires [assignees] and nothing else: without [id] the read shape is
    refused as missing the field, with [id] None it is refused as None; any
    other absent key raises no error at its field in either shape. *)
Theorem required_fields :
  (forall values : gmap string pyval,
     values !! "id" = None ->
     rejects (TaskRead.init values) [LField "id"] MissingError)
  /\ (forall values : gmap string pyval,
        values !! "id" = Some PNone ->
        rejects (TaskRead.init values) [LField "id"] NoneIsNotAllowedError)
  /\ (forall (values : gmap string pyval) (name : string),
        values !! name = None -> name <> "id" ->
        no_error_at (TaskRead.init values) name)
  /\ (forall (values : gmap string pyval) (name : string),
        values !! name = None -> name <> "assignees" ->
        no_error_at (TaskUpdate.init values) name).
Proof.
  split; [ exact read_id_missing | ]. split; [ | split ].
  - intros values Hget. unfold TaskRead.init.
    apply rejects_ap_l, rejects_ap_r.
    apply (rejects_field _ _ PNone); [ exact Hget | apply rejects_fail ].
  - intros values name Hget Hne l k Hin. rewrite read_errors in Hin.
    apply elem_of_app in Hin as [Hin | Hin];
      [ apply elem_of_app in Hin as [Hin | Hin] | ].
    + revert Hin. apply fields_absent_no_error; [ exact Hget | discriminate ].
    + pose proof (field_errors_head _ _ _ _ _ Hin) as [l' Hhead].
      simpl in Hhead. injection Hhead as Hname _. contradiction.
    + not_from_absent Hin Hget.
  - intros values name Hget Hne.
    apply fields_absent_no_error; [ exact Hget | ].
    intros Hname. contradiction.
Qed.

(** Item by item, the validated list of assignees mirrors the input. *)
Lemma assignees_mirror {A : Type} (validate : pyval -> V A)
    (xs : list pyval) (ys : list (option A)) :
  Forall2 (fun x y => optional validate x = inr y) xs ys ->
  length ys = length xs
  /\ (forall i : nat, ys !! i = Some None <-> xs !! i = Some PNone).
Proof.
  intros Hall. split; [ symmetry; exact (Forall2_length _ _ _ Hall) | ].
  intros i. split; intros Hi.
  - destruct (Forall2_lookup_r _ _ _ _ _ Hall Hi) as (x & Hx & Hv).
    apply optional_inr_none in Hv. subst x. exact Hx.
  - destruct (Forall2_lookup_l _ _ _ _ _ Hall Hi) as (y & Hy & Hv).
    simpl in Hv. injection Hv as <-. exact Hy.
Qed.

Lemma errors_at_loc {A : Type} (l : loc_item) (w : V A) :
  errors (at_loc l w)
  = map (fun e : ErrorWrapper => (l :: e.1, e.2)) (errors w).
Proof. destruct w; reflexivity. Qed.

(** Every error of a list comes from one of its items and is reported at
    the index of that item. *)
Lemma validate_items_errors_origin {A : Type} (validate : pyval -> V A)
    (n : nat) (xs : list pyval) (e : ErrorWrapper) :
  e ∈ errors (validate_items validate n xs) ->
  exists (i : nat) x e',
    xs !! i = Some x /\ e' ∈ errors (validate x)
    /\ e = (LIndex (n + i)%nat :: e'.1, e'.2).
Proof.
  revert n. induction xs as [ | x xs IH]; intros n Hin.
  - apply elem_of_nil in Hin. contradiction.
  - rewrite validate_items_cons, !errors_ap in Hin. simpl in Hin.
    apply elem_of_app in Hin as [Hin | Hin].
    + rewrite errors_at_loc in Hin.
      apply list_elem_of_fmap in Hin as (e' & -> & Hin).
      exists 0%nat, x, e'. rewrite Nat.add_0_r. repeat split. exact Hin.
    + apply IH in Hin as (i & x' & e' & Hi & Hin & ->).
      exists (S i), x', e'. split; [ exact Hi | ]. split; [ exact Hin | ].
      replace (n + S i)%nat with (S n + i)%nat by lia. reflexivity.
Qed.

(** A None among the assignees raises no error at its index. *)
Lemma assignees_none_item_no_error {A : Type}
    (validate : pyval -> V A) (default : option (list (option A)))
    (values : gmap string pyval) (xs : list pyval) (i : nat) l k :
  values !! "assignees" = Some (PList xs) ->
  xs !! i = Some PNone ->
  (LField "assignees" :: LIndex i :: l, k)
  ∉ errors (field values "assignees" default
              (not_none (list_validator (optional validate)))).
Proof.
  intros Hget Hi Hin. rewrite (field_present _ _ _ _ _ Hget) in Hin.
  rewrite errors_at_loc in Hin.
  apply list_elem_of_fmap in Hin as (e & Heq & Hin).
  simpl in Hin.
  apply validate_items_errors_origin in Hin as (j & x & e' & Hj & Hin & ->).
  simpl in Heq. injection Heq as Hij _ _. subst j.
  rewrite Hi in Hj. injection Hj as <-.
  apply elem_of_nil in Hin. exact Hin.
Qed.

Lemma fields_errors_tickets {C O A : Type}
    (creator_validate : pyval -> V C) (owner_validate : pyval -> V O)
    (assignee_validate : pyval -> V A)
    (assignees_default : option (list (option A)))
    (values : gmap string pyval) l k :
  (LField "tickets" :: l, k)
  ∈ errors (TaskBase.fields creator_validate owner_validate
              assignee_validate assignees_default values) ->
  (LField "tickets" :: l, k)
  ∈ errors (field values "tickets" (Some (Some []))
              (optional
                 (list_validator
                    (not_none (model_validator TicketRead.init))))).
Proof.
  intros Hin. rewrite fields_errors in Hin.
  repeat (apply elem_of_app in Hin as [Hin | Hin]);
    try (apply elem_of_nil in Hin; contradiction);
    try (apply field_errors_head in Hin as [? Hin]; simpl in Hin;
         discriminate Hin).
  exact Hin.
Qed.

(** In the create and read shapes an error at a base field comes from
    the base fields. *)
Lemma create_errors_base (values : gmap string pyval) (name : string) l k :
  name <> "resource_type" ->
  (LField name :: l, k) ∈ errors (TaskCreate.init values) ->
  (LField name :: l, k)
  ∈ errors (TaskBase.fields ParticipantUpdate_validate
              ParticipantUpdate_validate ParticipantUpdate_validate
              (Some []) values).
Proof.
  intros Hne Hin. rewrite create_errors in Hin.
  apply elem_of_app in Hin as [Hin | Hin]; [ exact Hin | ].
  apply field_errors_head in Hin as [l' Hhead]. simpl in Hhead.
  injection Hhead as Hname _. contradiction.
Qed.

Lemma read_errors_base (values : gmap string pyval) (name : string) l k :
  name <> "id" -> name <> "project" ->
  (LField name :: l, k) ∈ errors (TaskRead.init values) ->
  (LField name :: l, k) ∈ errors (TaskBase.init values).
Proof.
  intros Hne1 Hne2 Hin. rewrite read_errors in Hin.
  apply elem_of_app in Hin as [Hin | Hin];
    [ apply elem_of_app in Hin as [Hin | Hin]; [ exact Hin | ] | ];
    apply field_errors_head in Hin as [l' Hhead]; simpl in Hhead;
    injection Hhead as Hname _; contradiction.
Qed.

(** X10: in the create, update and read shapes the two list fields treat
    None differently, as their annotations say.  [assignees] is a list of
    optional participants: None for the list is refused; a None in the
    list raises no error at its index, an input list gives a list of the
    same length that has None exactly where the input has None, and the
    list with one None constructs.  [tickets] is an optional list of
    tickets: None for the list raises no error at the field, is what the
    constructed shape holds, and constructs; a None among the tickets is
    refused at its index. *)
Theorem none_in_assignees_and_tickets (values : gmap string pyval) :
  (values !! "assignees" = Some PNone ->
   rejects (TaskCreate.init values) [LField "assignees"]
     NoneIsNotAllowedError
   /\ rejects (TaskUpdate.init values) [LField "assignees"]
        NoneIsNotAllowedError
   /\ rejects (TaskRead.init values) [LField "assignees"]
        NoneIsNotAllowedError)
  /\ (forall xs, values !! "assignees" = Some (PList xs) ->
        (forall r, TaskCreate.init values = inr r ->
           length (TaskBase.assignees (TaskCreate.base r)) = length xs
           /\ (forall i : nat,
                 TaskBase.assignees (TaskCreate.base r) !! i = Some None
                 <-> xs !! i = Some PNone))
        /\ (forall r, TaskUpdate.init values = inr r ->
              length (TaskBase.assignees r) = length xs
              /\ (forall i : nat,
                    TaskBase.assignees r !! i = Some None
                    <-> xs !! i = Some PNone))
        /\ (forall r, TaskRead.init values = inr r ->
              length (TaskBase.assignees (TaskRead.base r)) = length xs
              /\ (forall i : nat,
                    TaskBase.assignees (TaskRead.base r) !! i = Some None
                    <-> xs !! i = Some PNone)))
  /\ (values !! "tickets" = Some PNone ->
      (forall r, TaskCreate.init values = inr r ->
         TaskBase.tickets (TaskCreate.base r) = None)
      /\ (forall r, TaskUpdate.init values = inr r ->
            TaskBase.tickets r = None)
      /\ (forall r, TaskRead.init values = inr r ->
            TaskBase.tickets (TaskRead.base r) = None))
  /\ (forall xs (i : nat),
        values !! "tickets" = Some (PList xs) -> xs !! i = Some PNone ->
        rejects (TaskCreate.init values) [LField "tickets"; LIndex i]
          NoneIsNotAllowedError
        /\ rejects (TaskUpdate.init values) [LField "tickets"; LIndex i]
             NoneIsNotAllowedError
        /\ rejects (TaskRead.init values) [LField "tickets"; LIndex i]
             NoneIsNotAllowedError)
  /\ (values !! "tickets" = Some PNone ->
      no_error_at (TaskCreate.init values) "tickets"
      /\ no_error_at (TaskUpdate.init values) "tickets"
      /\ no_error_at (TaskRead.init values) "tickets")
  /\ (forall xs (i : nat),
        values !! "assignees" = Some (PList xs) -> xs !! i = Some PNone ->
        forall l k,
          ((LField "assignees" :: LIndex i :: l, k)
           ∉ errors (TaskCreate.init values))
          /\ ((LField "assignees" :: LIndex i :: l, k)
              ∉ errors (TaskUpdate.init values))
          /\ ((LField "assignees" :: LIndex i :: l, k)
              ∉ errors (TaskRead.init values)))
  /\ TaskUpdate.init {[ "assignees" := PList [PNone] ]}
     = inr (TaskBase.mk ParticipantRead ParticipantUpdate ParticipantUpdate
              None None None None None None TaskStatus.open [None] None
              None None (Some []) None None None)
  /\ TaskUpdate.init {[ "assignees" := PList []; "tickets" := PNone ]}
     = inr (TaskBase.mk ParticipantRead ParticipantUpdate ParticipantUpdate
              None None None None None None TaskStatus.open [] None None
              None None None None None)
  /\ TaskCreate.init {[ "tickets" := PNone ]}
     = inr (TaskCreate.mk
              (TaskBase.mk ParticipantUpdate ParticipantUpdate
                 ParticipantUpdate
                 None None None None None None TaskStatus.open [] None None
                 None None None None None)
              (Some INCIDENT_RESOURCE_INCIDENT_TASK)).
Proof.
  split; [ | split; [ | split; [ | split; [ | split; [ | split ] ] ] ] ].
  - intros Hget. split; [ | split ].
    + unfold TaskCreate.init.
      apply rejects_ap_l, rejects_ap_r, fields_assignees_none, Hget.
    + apply fields_assignees_none, Hget.
    + unfold TaskRead.init, TaskBase.init.
      apply rejects_ap_l, rejects_ap_l, rejects_ap_r,
        fields_assignees_none, Hget.
  - intros xs Hget. split; [ | split ]; intros r H.
    + apply create_inr_base in H as [H _].
      apply assignees_mirror with (validate := ParticipantUpdate_validate).
      exact (fields_assignees_items _ _ _ _ values xs _ Hget H).
    + apply assignees_mirror with (validate := ParticipantUpdate_validate).
      exact (fields_assignees_items _ _ _ _ values xs _ Hget H).
    + apply read_inr_base in H as [H _].
      apply assignees_mirror with (validate := ParticipantRead_validate).
      exact (fields_assignees_items _ _ _ _ values xs _ Hget H).
  - intros Hget. split; [ | split ]; intros r H.
    + apply create_inr_base in H as [H _].
      exact (fields_tickets_none _ _ _ _ values _ Hget H).
    + exact (fields_tickets_none _ _ _ _ values _ Hget H).
    + apply read_inr_base in H as [H _].
      exact (fields_tickets_none _ _ _ _ values _ Hget H).
  - intros xs i Hget Hi. split; [ | split ].
    + unfold TaskCreate.init.
      apply rejects_ap_l, rejects_ap_r.
      exact (fields_tickets_item_none _ _ _ _ values xs i Hget Hi).
    + exact (fields_tickets_item_none _ _ _ _ values xs i Hget Hi).
    + unfold TaskRead.init, TaskBase.init.
      apply rejects_ap_l, rejects_ap_l, rejects_ap_r.
      exact (fields_tickets_item_none _ _ _ _ values xs i Hget Hi).
  - intros Hget.
    assert (Hfield : forall l k,
               (LField "tickets" :: l, k)
               ∉ errors (field values "tickets" (Some (Some []))
                           (optional
                              (list_validator
                                 (not_none
                                    (model_validator TicketRead.init)))))).
    { intros l k Hin. rewrite (field_present _ _ _ _ _ Hget) in Hin.
      apply elem_of_nil in Hin. exact Hin. }
    split; [ | split ]; intros l k Hin.
    + apply create_errors_base in Hin; [ | discriminate ].
      apply fields_errors_tickets in Hin. exact (Hfield l k Hin).
    + apply fields_errors_tickets in Hin. exact (Hfield l k Hin).
    + apply read_errors_base in Hin; [ | discriminate | discriminate ].
      apply fields_errors_tickets in Hin. exact (Hfield l k Hin).
  - intros xs i Hget Hi l k. split; [ | split ]; intros Hin.
    + apply create_errors_base in Hin; [ | discriminate ].
      apply fields_errors_assignees in Hin.
      exact (assignees_none_item_no_error _ _ values xs i l k Hget Hi Hin).
    + apply fields_errors_assignees in Hin.
      exact (assignees_none_item_no_error _ _ values xs i l k Hget Hi Hin).
    + apply read_errors_base in Hin; [ | discriminate | discriminate ].
      apply fields_errors_assignees in Hin.
      exact (assignees_none_item_no_error _ _ values xs i l k Hget Hi Hin).
  - repeat split; reflexivity.
Qed.

Lemma tickets_all_described {C O A : Type}
    (creator_validate : pyval -> V C) (owner_validate : pyval -> V O)
    (assignee_validate : pyval -> V A)
    (assignees_default : option (list (option A)))
    (values : gmap string pyval) (r : TaskBase.t C O A)
    (ts : list TicketRead.t) :
  TaskBase.fields creator_validate owner_validate assignee_validate
    assignees_default values = inr r ->
  TaskBase.tickets r = Some ts ->
  Forall (fun t => TicketRead.description t
                   = Some INCIDENT_TICKET_DESCRIPTION) ts.
Proof.
  intros H Hts.
  destruct (fields_tickets_items _ _ _ _ values r ts H Hts)
    as [[_ ->] | (xs & _ & Hall)]; [ constructor | ].
  clear H Hts.
  induction Hall as [ | x y xs' ts' (d & _ & Hy) _ IH]; constructor.
  - apply (ticket_read_holds_description d), Hy.
  - exact IH.
Qed.

(** X11: every ticket carried by a constructed create, update or read
    shape of a Task has the constant INCIDENT_TICKET_DESCRIPTION as its
    description, whatever the input gave for the tickets: dicts with a
    description of their own, or other values from which [dict] makes
    the keyword arguments of a ticket. *)
Theorem tickets_carry_description (values : gmap string pyval) :
  (forall r ts, TaskCreate.init values = inr r ->
     TaskBase.tickets (TaskCreate.base r) = Some ts ->
     Forall (fun t => TicketRead.description t
                      = Some INCIDENT_TICKET_DESCRIPTION) ts)
  /\ (forall r ts, TaskUpdate.init values = inr r ->
        TaskBase.tickets r = Some ts ->
        Forall (fun t => TicketRead.description t
                         = Some INCIDENT_TICKET_DESCRIPTION) ts)
  /\ (forall r ts, TaskRead.init values = inr r ->
        TaskBase.tickets (TaskRead.base r) = Some ts ->
        Forall (fun t => TicketRead.description t
                         = Some INCIDENT_TICKET_DESCRIPTION) ts).
Proof.
  split; [ | split ]; intros r ts H Hts.
  - apply create_inr_base in H as [H _].
    exact (tickets_all_described _ _ _ _ values _ ts H Hts).
  - exact (tickets_all_described _ _ _ _ values _ ts H Hts).
  - apply read_inr_base in H as [H _].
    exact (tickets_all_described _ _ _ _ values _ ts H Hts).
Qed.

(** X12: the resource type of a constructed create shape is the constant
    INCIDENT_RESOURCE_INCIDENT_TASK when the key is absent, nothing when
    the key is given as None, and the string itself when a string is
    given: leaving the key out and giving None are not the same. *)
Theorem create_resource_type (values : gmap string pyval) (r : TaskCreate.t) :
  TaskCreate.init values = inr r ->
  (values !! "resource_type" = None ->
   TaskCreate.resource_type r = Some INCIDENT_RESOURCE_INCIDENT_TASK)
  /\ (values !! "resource_type" = Some PNone ->
      TaskCreate.resource_type r = None)
  /\ (forall s, values !! "resource_type" = Some (PStr s) ->
        TaskCreate.resource_type r = Some s).
Proof.
  intros H. apply create_inr_base in H as [_ H].
  split; [ | split ].
  - intros Hget. rewrite (field_absent _ _ _ _ Hget) in H.
    injection H as <-. reflexivity.
  - intros Hget. apply (field_inr_present _ _ _ _ _ _ Hget) in H.
    simpl in H. injection H as <-. reflexivity.
  - intros s Hget. apply (field_inr_present _ _ _ _ _ _ Hget) in H.
    simpl in H. injection H as <-. reflexivity.
Qed.

(** ** The Ticket shapes *)

(** X13: the read shape of a Ticket accepts exactly the inputs its base
    shape accepts, with the same errors, and holds the same three fields,
    to which it adds the constant description; the create and update
    shapes are the base shape, and a key that is none of the three fields
    -- a description, an id -- has no part in their outcome. *)
Theorem ticket_read_extends_base (values : gmap string pyval) :
  errors (TicketRead.init values) = errors (TicketBase.init values)
  /\ (forall b, TicketBase.init values = inr b ->
        TicketRead.init values
        = inr (TicketRead.mk (TicketBase.resource_id b)
                 (TicketBase.resource_type b) (TicketBase.weblink b)
                 (Some INCIDENT_TICKET_DESCRIPTION)))
  /\ (forall r, TicketRead.init values = inr r ->
        TicketBase.init values
        = inr (TicketBase.mk (TicketRead.resource_id r)
                 (TicketRead.resource_type r) (TicketRead.weblink r)))
  /\ TicketCreate.init values = TicketBase.init values
  /\ TicketUpdate.init values = TicketBase.init values
  /\ (forall key v,
        key <> "resource_id" -> key <> "resource_type" -> key <> "weblink" ->
        TicketCreate.init (<[key := v]> values) = TicketCreate.init values
        /\ TicketUpdate.init (<[key := v]> values)
           = TicketUpdate.init values).
Proof.
  split; [ | split; [ | split; [ | split; [ reflexivity | split ] ] ] ].
  - unfold TicketRead.init, TicketBase.init.
    rewrite description_field, !errors_ap. simpl. rewrite app_nil_r.
    reflexivity.
  - intros b H. unfold TicketBase.init in H. take_apart H. subst.
    unfold TicketRead.init. rewrite description_field.
    repeat match goal with
           | Hf : field _ _ _ _ = inr _ |- _ => rewrite Hf; clear Hf
           end.
    reflexivity.
  - intros r H. unfold TicketRead.init in H. rewrite description_field in H.
    take_apart H. subst. unfold TicketBase.init.
    repeat match goal with
           | Hf : field _ _ _ _ = inr _ |- _ => rewrite Hf; clear Hf
           end.
    reflexivity.
  - reflexivity.
  - intros key v H1 H2 H3.
    unfold TicketCreate.init, TicketUpdate.init, TicketBase.init.
    rewrite !field_insert_ne by assumption. split; reflexivity.
Qed.

(** X14: the nested shape of a Ticket requires [id]: without the key it
    is refused as missing the field; when it is constructed it holds the
    base shape of the same input, and an integer given for [id] is the id
    it holds. *)
Theorem ticket_nested_requires_id (values : gmap string pyval) :
  (values !! "id" = None ->
   rejects (TicketNested.init values) [LField "id"] MissingError)
  /\ (forall r, TicketNested.init values = inr r ->
        TicketBase.init values = inr (TicketNested.base r)
        /\ (forall n, values !! "id" = Some (PInt n) ->
              TicketNested.id r = n)).
Proof.
  split.
  - intros Hget. unfold TicketNested.init. apply rejects_ap_r.
    unfold field. rewrite Hget.
    exists [([LField "id"], MissingError)].
    split; [ reflexivity | apply list_elem_of_singleton; reflexivity ].
  - intros r H. unfold TicketNested.init in H.
    apply ap_inr_inv in H as (g & n' & H & Hid & ->).
    apply ap_inr_inv in H as (g' & b & H & Hbase & ->).
    injection H as <-. split; [ exact Hbase | ].
    intros n Hget. apply (field_inr_present _ _ _ _ _ _ Hget) in Hid.
    simpl in Hid. injection Hid as <-. reflexivity.
Qed.

(** ** A page of tasks *)




End MoreShapes.

Lemma create_resource_type_witness :
  let values : gmap string pyval := {[ "resource_type" := PNone ]} in
  let r :=
    @TaskCreate.mk example_externals
      (@TaskBase.mk example_externals (gmap string pyval)
         (gmap string pyval) (gmap string pyval)
         None None None None None None TaskStatus.open [] None None None
         (Some []) None None None)
      None in
  (values !! "resource_type" = None ->
   TaskCreate.resource_type r = Some "google-docs-incident-task")
  /\ (values !! "resource_type" = Some PNone ->
      TaskCreate.resource_type r = None)
  /\ (forall s, values !! "resource_type" = Some (PStr s) ->
        TaskCreate.resource_type r = Some s).
Proof.
  exact (@create_resource_type example_externals
           {[ "resource_type" := PNone ]} _ eq_refl).
Defined.

(** ** The shapes on concrete inputs *)

(** A page whose second item has no id. *)
Example page_item_without_id :
  @TaskPagination.init example_externals
    {[ "total" := PInt 2;
       "items" := PList [PDict [("id", PInt 1)]; PDict []] ]}
  = inl [([LField "items"; LIndex 1; LField "id"], MissingError)].
Proof. reflexivity. Qed.

(** An update with an assignee left as None and a ticket that brings a
    description of its own. *)
Example update_with_ticket :
  @TaskUpdate.init example_externals
    {[ "assignees" := PList [PNone; PDict []];
       "tickets" := PList [PDict [("description", PStr "mine")]] ]}
  = inr (@TaskBase.mk example_externals (gmap string pyval)
           (gmap string pyval) (gmap string pyval)
           None None None None None None TaskStatus.open [None; Some ∅]
           None None None
           (Some [TicketRead.mk None None None
                    (Some "Ticket for tracking purposes.")])
           None None None).
Proof. reflexivity. Qed.

(** A None among the tickets. *)
Example update_with_none_ticket :
  @TaskUpdate.init example_externals
    {[ "assignees" := PList []; "tickets" := PList [PNone] ]}
  = inl [([LField "tickets"; LIndex 0], NoneIsNotAllowedError)].
Proof. reflexivity. Qed.

(** The clock at the last microsecond of the calendar. *)
Example default_resolution_time_overflow :
  default_resolution_time {[ "source" := PStr "Incident" ]} datetime.max
  = inl OverflowError.
Proof. reflexivity. Qed.

(** A ticket given as an empty list, and one given as a list of pairs:
    both go through [dict]. *)
Example update_with_list_tickets :
  @TaskUpdate.init example_externals
    {[ "assignees" := PList [];
       "tickets" := PList [PList [];
                           PList [PList [PStr "weblink"; PStr "w"]]] ]}
  = inr (@TaskBase.mk example_externals (gmap string pyval)
           (gmap string pyval) (gmap string pyval)
           None None None None None None TaskStatus.open [] None None None
           (Some [TicketRead.mk None None None
                    (Some "Ticket for tracking purposes.");
                  TicketRead.mk None None (Some "w")
                    (Some "Ticket for tracking purposes.")])
           None None None).
Proof. reflexivity. Qed.

(** A page whose item is a list of pairs. *)
Example page_item_from_pairs :
  @TaskPagination.init example_externals
    {[ "total" := PInt 1;
       "items" := PList [PList [PList [PStr "id"; PInt 1]]] ]}
  = inr (@TaskPagination.mk example_externals 1
           [@TaskRead.mk example_externals
              (@TaskBase.mk example_externals (gmap string pyval)
                 (gmap string pyval) (gmap string pyval)
                 None None None None None None TaskStatus.open [] None None
                 None (Some []) None None None)
              1 None]).
Proof. reflexivity. Qed.

(** Items that are a number, a pair with a key that is no string, and a
    str of two characters (the keyword "a", with no id). *)
Example page_items_refused :
  @TaskPagination.init example_externals
    {[ "total" := PInt 3;
       "items" := PList [PInt 5; PList [PList [PInt 1; PInt 2]];
                         PList [PStr "ab"]] ]}
  = inl [([LField "items"; LIndex 0], DictError);
         ([LField "items"; LIndex 1], TypeError "keywords must be strings");
         ([LField "items"; LIndex 2; LField "id"], MissingError)].
Proof. reflexivity. Qed.
